(** * Simple Test Framework (terrapane/stf): a shallow embedding of
      src/src/stf.cpp and src/include/terra/stf/stf.h

    The development follows the source file by file:

    - the process state shared by the runner, the worker thread and the test
      bodies (message strings, [Test_Failed], [std::cout], the steady clock
      and the octets of memory), with the instant until which a worker is
      observed;
    - a small monad [M] for code that reads and writes that state, may throw
      a C++ exception, and may never return;
    - the registry ([RegisterTest], [ExcludeTest]);
    - the assertion functions ([AssertClose], [AssertMemoryEqual],
      [AssertMemoryNotEqual], [AssertException] and its typed form);
    - [FriendlyDuration] and [main].

    Conventions.  [std::cout] is the list of the items inserted with [<<], in
    order.  [unsigned] is an [N] below [2^32] with its wrap-around written
    out; [std::size_t] is an [N]; [std::chrono::nanoseconds] is a [Z].
    [float], [double] and [long double] are IEEE 754 binary formats, given by
    their precision and maximal exponent, with the operations of
    [SpecFloat]. *)

From Stdlib Require Import ZArith NArith QArith List String Ascii Bool Lia.
From Stdlib.Strings Require Import Byte.
From Stdlib Require Import SpecFloat.
Import ListNotations.

Local Open Scope string_scope.
Local Open Scope list_scope.
Local Open Scope N_scope.
Set Warnings "-register-all".

(** ** Output streams *)

(** One item inserted into a [std::ostream]. *)
Inductive Chunk : Type :=
| Str (s : string)                 (* << "text" or << std::string *)
| Num (n : N)                      (* << unsigned integer, decimal *)
| Hex (width : nat) (n : N)        (* << std::hex << std::setfill('0') << std::setw(width) << n *)
| Dbl (q : Q)                      (* << double, the value x / 1000.0 as a rational *)
| Flt (prec emax : Z) (x : spec_float)   (* << std::setprecision(26) << floating-point value *)
| Endl                             (* << std::endl *)
| Flush.                           (* << std::flush *)

Definition ostream : Type := list Chunk.

(** ** Exceptions *)

(** How a class names one of its direct bases: [public] or not, [virtual]
    or not. *)
Record BaseSpecifier : Type := mkBaseSpecifier {
  is_public : bool;
  is_virtual : bool
}.

(** A type that can be thrown, with its direct base classes.  A type without
    bases stands for a root class or a non-class type. *)
Inductive ExnType : Type :=
| Class (type_id : string) (bases : list (BaseSpecifier * ExnType)).

Definition type_name (E : ExnType) : string :=
  match E with Class n _ => n end.

Definition base_classes (E : ExnType) : list (BaseSpecifier * ExnType) :=
  match E with Class _ bs => bs end.

(** [class D : public B]. *)
Definition public_base (B : ExnType) : BaseSpecifier * ExnType :=
  (mkBaseSpecifier true false, B).

(** An exception object in flight: its dynamic type and the text that
    [what()] returns when the type derives from [std::exception]. *)
Record Exception : Type := mkException {
  dynamic_type : ExnType;
  what : string
}.

(** The subobjects of an object of class [E].  Each is given by the class
    names along the inheritance path that identifies it, and by whether that
    path is public all along.  The path starts at the complete object, or at
    the virtual base under which the subobject lies: all the paths to a
    virtual base lead to one and the same subobject.  [path] and
    [accessible] are those of the object of class [E] itself. *)
Fixpoint subobjects (path : list string) (accessible : bool) (E : ExnType)
  {struct E} : list (list string * bool) :=
  match E with
  | Class n bs =>
      (path ++ [n], accessible) ::
      (fix over (l : list (BaseSpecifier * ExnType))
         : list (list string * bool) :=
         match l with
         | [] => []
         | sb :: l' =>
             subobjects (if is_virtual (fst sb) then [] else path ++ [n])
                        (accessible && is_public (fst sb)) (snd sb)
             ++ over l'
         end) bs
  end.

(** The path ends at a class named [T]. *)
Definition ends_in (T : string) (path : list string) : bool :=
  match rev path with
  | n :: _ => String.eqb n T
  | [] => false
  end.

Definition path_eqb (a b : list string) : bool :=
  if list_eq_dec string_dec a b then true else false.

(** The base class subobjects of class [T] in an object of class [E]. *)
Definition base_subobjects (T : string) (E : ExnType)
  : list (list string * bool) :=
  filter (fun s => ends_in T (fst s)) (tl (subobjects [] true E)).

(** [T] is an unambiguous public base class of [E]: an object of class [E]
    has one base class subobject of class [T] and no more, and some path to
    it is public all along. *)
Definition unambiguous_public_base (T : string) (E : ExnType) : bool :=
  match base_subobjects T E with
  | [] => false
  | s :: rest =>
      forallb (fun s' => path_eqb (fst s) (fst s')) rest &&
      existsb snd (s :: rest)
  end.

(** [catch (const T &)]: the handler is entered when the thrown object has
    type [T], or a type of which [T] is an unambiguous public base class. *)
Definition handler_matches (T : string) (E : ExnType) : bool :=
  String.eqb (type_name E) T || unambiguous_public_base T E.


(** ** Process state *)

Definition Memory : Type := N -> byte.

Record Process : Type := mkProcess {
  ExpectText : string;
  ActualText : string;
  LHSText : string;
  RHSText : string;
  Test_Failed : bool;              (* std::atomic<bool> Test_Failed *)
  cout : ostream;                  (* std::cout *)
  steady_clock : Z;                (* std::chrono::steady_clock, in nanoseconds *)
  memory : Memory;
  deadline : option Z              (* until when a worker is observed, see [at_deadline] *)
}.

(** ** Computations *)

Inductive Res (A : Type) : Type :=
| Ret (a : A)                      (* returns a *)
| Raise (e : Exception)            (* leaves by a throw *)
| Hang.                            (* never returns *)
Arguments Ret {A} a.
Arguments Raise {A} e.
Arguments Hang {A}.

Definition M (A : Type) : Type := Process -> Res A * Process.

Definition ret {A} (a : A) : M A := fun p => (Ret a, p).

Definition bind {A B} (c : M A) (k : A -> M B) : M B :=
  fun p =>
    match c p with
    | (Ret a, p') => k a p'
    | (Raise e, p') => (Raise e, p')
    | (Hang, p') => (Hang, p')
    end.

Declare Scope stf_scope.
Delimit Scope stf_scope with stf.
Notation "x <- c ;; k" := (bind c (fun x => k))
  (at level 61, c at next level, right associativity) : stf_scope.
Notation "c ;; k" := (bind c (fun _ => k))
  (at level 61, right associativity) : stf_scope.
Local Open Scope stf_scope.

Definition throw {A} (e : Exception) : M A := fun p => (Raise e, p).

Definition get : M Process := fun p => (Ret p, p).

(** [std::cout << items]. *)
Definition print (items : ostream) : M unit :=
  fun p => (Ret tt,
            mkProcess (ExpectText p) (ActualText p) (LHSText p) (RHSText p)
                      (Test_Failed p) (cout p ++ items) (steady_clock p)
                      (memory p) (deadline p)).

(** [Test_Failed = b]. *)
Definition set_Test_Failed (b : bool) : M unit :=
  fun p => (Ret tt,
            mkProcess (ExpectText p) (ActualText p) (LHSText p) (RHSText p)
                      b (cout p) (steady_clock p) (memory p) (deadline p)).

(** [std::chrono::steady_clock::now()]. *)
Definition now : M Z := fun p => (Ret (steady_clock p), p).

(** A [std::function<void()>]. *)
Definition Callable : Type := M unit.

(** The process with the clock at [t], and the process in which a worker is
    observed until the instant [d]. *)
Definition set_clock (t : Z) (p : Process) : Process :=
  mkProcess (ExpectText p) (ActualText p) (LHSText p) (RHSText p)
            (Test_Failed p) (cout p) t (memory p) (deadline p).

Definition observe_until (d : Z) (p : Process) : Process :=
  mkProcess (ExpectText p) (ActualText p) (LHSText p) (RHSText p)
            (Test_Failed p) (cout p) (steady_clock p) (memory p) (Some d).

(** ** Printing helpers (stf.cpp, stf.h) *)

(** [AssignMessageStrings]. *)
Definition AssignMessageStrings : M unit :=
  fun p => (Ret tt,
            mkProcess "  expected: " "    actual: " "  lhs: " "  rhs: "
                      (Test_Failed p) (cout p) (steady_clock p) (memory p)
                      (deadline p)).

(** [GetMemoryHex]: the contents of its [std::ostringstream]. *)
Fixpoint GetMemoryHex_loop (mem : Memory) (base : N) (count : nat) (i : N)
  : ostream :=
  match count with
  | O => []
  | S count' =>
      (if 0 <? i then [Str " "] else []) ++
      Hex 2 (Byte.to_N (mem (base + i))) ::
      GetMemoryHex_loop mem base count' (i + 1)
  end.

Definition GetMemoryHex (mem : Memory) (base : N) (length : N) : ostream :=
  GetMemoryHex_loop mem base (N.to_nat length) 0.

(** [PrintAssertFailed]. *)
Definition PrintAssertFailed (file : string) (line : N) : M unit :=
  print [Endl; Str "Assertion failed at "; Str file; Str ":"; Num line; Endl].

(** [PrintValue] on a [std::string] (the streamable-object overload). *)
Definition PrintValue_string (text value : string) : M unit :=
  print [Str text; Str value; Endl].

(** [PrintValue] on a floating-point value. *)
Definition PrintValue_float (prec emax : Z) (text : string) (x : spec_float)
  : M unit :=
  print [Str text; Flt prec emax x; Endl].

(** ** Memory assertions *)

(** The comparison loop shared by [AssertMemoryEqual] and
    [AssertMemoryNotEqual]:
    [for (i = 0; i < length; i++) if (left[i] != right[i]) { equal = false; break; }].
    The result is [equal] and the value of [i] when the loop is left. *)
Fixpoint compare_loop (mem : Memory) (left right : N) (count : nat) (i : N)
  : bool * N :=
  match count with
  | O => (true, i)
  | S count' =>
      if Byte.eqb (mem (left + i)) (mem (right + i))
      then compare_loop mem left right count' (i + 1)
      else (false, i)
  end.

Definition AssertMemoryEqual (file : string) (line : N)
    (expected actual : N) (length : N) : M bool :=
  p <- get ;;
  let equal := fst (compare_loop (memory p) expected actual (N.to_nat length) 0) in
  if equal then ret true
  else
    PrintAssertFailed file line ;;
    print ([Str (ExpectText p); Str "0x"] ++
           GetMemoryHex (memory p) expected length ++
           [Endl; Str (ActualText p); Str "0x"] ++
           GetMemoryHex (memory p) actual length ++ [Endl]) ;;
    ret false.

Definition AssertMemoryNotEqual (file : string) (line : N)
    (lhs rhs : N) (length : N) : M bool :=
  p <- get ;;
  let equal := fst (compare_loop (memory p) lhs rhs (N.to_nat length) 0) in
  if negb equal then ret true
  else
    PrintAssertFailed file line ;;
    print ([Str (LHSText p); Str "0x"] ++
           GetMemoryHex (memory p) lhs length ++
           [Endl; Str (RHSText p); Str "0x"] ++
           GetMemoryHex (memory p) rhs length ++ [Endl]) ;;
    ret false.

(** ** try / catch *)

(** One handler of a try block. *)
Inductive Handler (A : Type) : Type :=
| catch_type (T : string) (h : Exception -> M A)   (* catch (const T &e) *)
| catch_all (h : M A).                             (* catch (...) *)
Arguments catch_type {A} T h.
Arguments catch_all {A} h.

(** The first handler, in order, that accepts the exception. *)
Fixpoint select_handler {A} (handlers : list (Handler A)) (e : Exception)
  : option (M A) :=
  match handlers with
  | [] => None
  | catch_type T h :: rest =>
      if handler_matches T (dynamic_type e) then Some (h e)
      else select_handler rest e
  | catch_all h :: _ => Some h
  end.

Definition try_block {A} (body : M A) (handlers : list (Handler A)) : M A :=
  fun p =>
    match body p with
    | (Raise e, p') =>
        match select_handler handlers e with
        | Some h => h p'
        | None => (Raise e, p')
        end
    | r => r
    end.

(** ** Floating-point formats *)

Record Format : Type := mkFormat { prec : Z; emax : Z }.

Definition binary32 : Format := mkFormat 24 128.          (* float *)
Definition binary64 : Format := mkFormat 53 1024.         (* double *)
Definition x87_extended : Format := mkFormat 64 16384.    (* long double, x86 *)

(** The value of a decimal literal [num / den] in a format: the quotient of
    two integers, rounded to nearest even. *)
Definition literal (f : Format) (num den : positive) : spec_float :=
  SFdiv (prec f) (emax f)
        (binary_normalize (prec f) (emax f) (Zpos num) 0 false)
        (binary_normalize (prec f) (emax f) (Zpos den) 0 false).

(** ** AssertClose *)

(** The three overloads of [AssertClose] differ only in the format of their
    operands and in the [fabsf]/[fabs]/[fabsl] they call. *)
Definition AssertClose (f : Format) (file : string) (line : N)
    (lhs rhs epsilon : spec_float) : M bool :=
  if SFltb (SFabs (SFsub (prec f) (emax f) lhs rhs)) epsilon then ret true
  else
    PrintAssertFailed file line ;;
    p <- get ;;
    PrintValue_float (prec f) (emax f) (LHSText p) lhs ;;
    PrintValue_float (prec f) (emax f) (RHSText p) rhs ;;
    ret false.

Definition AssertClose_float := AssertClose binary32.
Definition AssertClose_double := AssertClose binary64.
Definition AssertClose_long_double := AssertClose x87_extended.

(** ** AssertException *)

(** [AssertException(file, line, function)]. *)
Definition AssertException (file : string) (line : N) (function : Callable)
  : M bool :=
  caught <- try_block (function ;; ret false) [catch_all (ret true)] ;;
  if (caught : bool) then ret true
  else
    PrintAssertFailed file line ;;
    p <- get ;;
    PrintValue_string (ExpectText p) "any exception thrown" ;;
    PrintValue_string (ActualText p) "no exception thrown" ;;
    ret false.

(** [AssertException<T>(file, line, function, exception_name)].  The try
    block yields the two locals [exception_thrown], [expected_exception]. *)
Definition AssertException_T (T : string) (file : string) (line : N)
    (function : Callable) (exception_name : string) : M bool :=
  flags <- try_block (function ;; ret (false, false))
               [catch_type T (fun _ => ret (true, true));
                catch_all (ret (true, false))] ;;
  let exception_thrown : bool := fst flags in
  let expected_exception : bool := snd flags in
  if negb expected_exception then
    PrintAssertFailed file line ;;
    p <- get ;;
    PrintValue_string (ExpectText p)
                      ("exception of type " ++ exception_name)%string ;;
    (if exception_thrown
     then PrintValue_string (ActualText p) "some other exception thrown"
     else PrintValue_string (ActualText p) "no exception thrown") ;;
    ret false
  else ret true.

(** ** AssertBoolean and the assertion macros *)

(** [AssertBoolean(file, line, value)]. *)
Definition AssertBoolean (file : string) (line : N) (value : bool) : M bool :=
  if value then ret value
  else PrintAssertFailed file line ;; ret false.

(** The shape shared by the [STF_ASSERT_...] macros that call an assertion
    function: [if (!assertion) { Test_Failed = true; return; }], followed by
    the rest of the test body. *)
Definition STF_ASSERT (assertion : M bool) (rest : M unit) : M unit :=
  ok <- assertion ;;
  if negb ok then set_Test_Failed true else rest.

Definition STF_ASSERT_TRUE (file : string) (line : N) (a : bool)
    (rest : M unit) : M unit :=
  STF_ASSERT (AssertBoolean file line (Bool.eqb a true)) rest.

Definition STF_ASSERT_FALSE (file : string) (line : N) (a : bool)
    (rest : M unit) : M unit :=
  STF_ASSERT (AssertBoolean file line (Bool.eqb a false)) rest.

Definition STF_ASSERT_MEM_EQ (file : string) (line : N) (a b size : N)
    (rest : M unit) : M unit :=
  STF_ASSERT (AssertMemoryEqual file line a b size) rest.

Definition STF_ASSERT_MEM_NE (file : string) (line : N) (a b size : N)
    (rest : M unit) : M unit :=
  STF_ASSERT (AssertMemoryNotEqual file line a b size) rest.

Definition STF_ASSERT_EXCEPTION (file : string) (line : N)
    (function : Callable) (rest : M unit) : M unit :=
  STF_ASSERT (AssertException file line function) rest.

Definition STF_ASSERT_EXCEPTION_E (file : string) (line : N)
    (function : Callable) (exception : string) (rest : M unit) : M unit :=
  STF_ASSERT (AssertException_T exception file line function exception) rest.

(** ** The registry *)

(** An element of [UnitTests]: [std::tuple<std::string, std::function<void()>, unsigned>]. *)
Record TestCase : Type := mkTest {
  test_name : string;
  test_body : Callable;
  test_timeout : N
}.

Record Registry : Type := mkRegistry {
  Unit_Tests : option (list TestCase);            (* std::unique_ptr<UnitTests> *)
  Unit_Test_Exclusions : option (list string);    (* std::unique_ptr<UnitTestExclusions> *)
  failed_registrations : N                        (* unsigned *)
}.

Definition empty_registry : Registry := mkRegistry None None 0.

(** What the allocator answers during one registration call: whether
    [std::make_unique] succeeds (asked only when the storage does not exist
    yet) and whether [emplace_back] succeeds; a refusal is a thrown
    [std::bad_alloc]. *)
Record Allocator : Type := mkAllocator {
  make_unique_ok : bool;
  emplace_back_ok : bool
}.

Definition UINT_MODULUS : N := 2 ^ 32.

(** [failed_registrations++]. *)
Definition increment_failed (r : Registry) : Registry :=
  mkRegistry (Unit_Tests r) (Unit_Test_Exclusions r)
             ((failed_registrations r + 1) mod UINT_MODULUS).

(** The try block of [RegisterTest]: [inl] is the registry when the block
    completes, [inr] the registry at the point where an exception left it. *)
Definition RegisterTest_try (heap : Allocator) (name : string)
    (test : Callable) (timeout : N) (r : Registry) : Registry + Registry :=
  let allocated :=
    match Unit_Tests r with
    | Some tests => inl tests
    | None => if make_unique_ok heap then inl [] else inr r
    end in
  match allocated with
  | inr r' => inr r'
  | inl tests =>
      if emplace_back_ok heap
      then inl (mkRegistry (Some (tests ++ [mkTest name test timeout]))
                           (Unit_Test_Exclusions r) (failed_registrations r))
      else inr (mkRegistry (Some tests)
                           (Unit_Test_Exclusions r) (failed_registrations r))
  end.

Definition RegisterTest (heap : Allocator) (name : string) (test : Callable)
    (timeout : N) (r : Registry) : N * Registry :=
  match RegisterTest_try heap name test timeout r with
  | inr r' => (0, increment_failed r')
  | inl r' =>
      (match Unit_Tests r' with
       | Some tests => N.of_nat (List.length tests)
       | None => 0
       end, r')
  end.

Definition ExcludeTest_try (heap : Allocator) (name : string) (r : Registry)
  : Registry + Registry :=
  let allocated :=
    match Unit_Test_Exclusions r with
    | Some names => inl names
    | None => if make_unique_ok heap then inl [] else inr r
    end in
  match allocated with
  | inr r' => inr r'
  | inl names =>
      if emplace_back_ok heap
      then inl (mkRegistry (Unit_Tests r) (Some (names ++ [name]))
                           (failed_registrations r))
      else inr (mkRegistry (Unit_Tests r) (Some names)
                           (failed_registrations r))
  end.

Definition ExcludeTest (heap : Allocator) (name : string) (r : Registry)
  : bool * Registry :=
  match ExcludeTest_try heap name r with
  | inr r' => (false, increment_failed r')
  | inl r' => (true, r')
  end.

Definition Default_Timeout : N := 600.

(** ** FriendlyDuration *)

(** [FriendlyDuration(duration)]: the contents of its [std::ostringstream].
    [duration_cast] to a coarser unit truncates toward zero; the division by
    [1000.0] is carried out on the exact count. *)
Definition FriendlyDuration (duration : Z) : ostream :=
  if (1000000000 <=? duration)%Z
  then [Dbl (Z.quot duration 1000000 # 1000); Str " s"]
  else if (1000000 <=? duration)%Z
  then [Dbl (Z.quot duration 1000 # 1000); Str " ms"]
  else [Dbl (duration # 1000); Str " us"].

(** The units [FriendlyDuration] chooses from, coarsest first. *)
Inductive TimeUnit : Type := Seconds | Milliseconds | Microseconds.

Definition unit_suffix (u : TimeUnit) : string :=
  match u with
  | Seconds => " s"
  | Milliseconds => " ms"
  | Microseconds => " us"
  end.

Definition nanoseconds_per (u : TimeUnit) : Z :=
  match u with
  | Seconds => 1000000000
  | Milliseconds => 1000000
  | Microseconds => 1000
  end.

(** ** main *)

Definition EXIT_SUCCESS : Z := 0.
Definition EXIT_FAILURE : Z := 1.

(** How the process ends. *)
Inductive Exit : Type :=
| Returned (status : Z)            (* return from main *)
| Exited (status : Z)              (* std::exit(status) *)
| Terminated.                      (* std::terminate: an exception left a thread *)

Inductive cv_status : Type := no_timeout | timeout.

(** The state of a process after a computation that returns [unit]. *)
Definition exec (c : M unit) (p : Process) : Process := snd (c p).

(** The inner loop of [main] over [*Unit_Test_Exclusions]. *)
Fixpoint exclusion_loop (exclusions : list string) (name : string) : bool :=
  match exclusions with
  | [] => false
  | exclusion :: rest =>
      if String.eqb exclusion name then true
      else exclusion_loop rest name
  end.

Definition exclude_test (exclusions : option (list string)) (name : string)
  : bool :=
  match exclusions with
  | None => false
  | Some l => exclusion_loop l name
  end.

(** The lambda run by [test_thread]. *)
Definition worker (test : Callable) : M (Z * Z) :=
  test_start_time <- now ;;
  try_block test
    [catch_type "std::exception"
       (fun e => print [Endl; Str "Unexpected exception thrown: ";
                        Str (what e); Endl] ;;
                 set_Test_Failed true);
     catch_all (print [Endl; Str "Unexpected exception thrown"; Endl] ;;
                set_Test_Failed true)] ;;
  test_end_time <- now ;;
  ret (test_start_time, test_end_time).

(** [cv.wait_for(lock, std::chrono::seconds(timeout))], seen from the
    controller: [launched] is the clock when the worker is started, [r] and
    [p'] are what the worker does.  The wait expires when the worker never
    reaches [notify_one], or reaches it [timeout] seconds or more after it
    was started.  (No spurious wake-up, no scheduling delay.) *)
Definition wait_for {A} (timeout_s : N) (launched : Z) (r : Res A)
    (p' : Process) : cv_status :=
  match r with
  | Hang => timeout
  | _ => if (steady_clock p' - launched <? Z.of_N timeout_s * 1000000000)%Z
         then no_timeout else timeout
  end.

Definition dquote : string := String (ascii_of_nat 34) EmptyString.

Definition timeout_message (name : string) (timeout_s : N) : ostream :=
  [Endl; Str ("Test " ++ dquote)%string; Str name;
   Str (dquote ++ " exceeded ")%string; Num timeout_s;
   Str " second timeout; terminating"; Endl].

(** The line that announces a test before its worker is started. *)
Definition running_line (name : string) : ostream :=
  [Str "Running test "; Str name; Flush].

(** What the loop over [*Unit_Tests] hands back to [main]. *)
Inductive Loop : Type :=
| Completed (total_duration : Z)   (* every test was visited *)
| Stopped (e : Exit).              (* the process ended inside the loop *)

(** The process at the moment the wait of [timeout_s] seconds expires, for
    a worker started in [p1]: what the worker has done by then.  A callable
    tells it when it is run in a process whose [deadline] is that moment
    (see [elapse]); nothing happens at or after the deadline, so that with
    a wait of no length the worker has done nothing. *)
Definition at_deadline (test : Callable) (timeout_s : N) (p1 : Process)
  : Process :=
  let d := (steady_clock p1 + Z.of_N timeout_s * 1000000000)%Z in
  if (d <=? steady_clock p1)%Z then p1
  else snd (worker test (observe_until d p1)).

(** The loop [for (const auto &unit_test : *Unit_Tests)] of [main].  What
    the worker does when left alone, [worker test p1], tells whether and
    when it signals.  When the wait expires first, [main] prints and calls
    [std::exit] at that moment, with the process as the worker has left it
    by then; what the worker would have done later never happens. *)
Fixpoint run_tests (exclusions : option (list string))
    (tests : list TestCase) (total_duration : Z) (p : Process)
  : Loop * Process :=
  match tests with
  | [] => (Completed total_duration, p)
  | unit_test :: rest =>
      let name := test_name unit_test in
      let test := test_body unit_test in
      let timeout_s := test_timeout unit_test in
      if exclude_test exclusions name then
        run_tests exclusions rest total_duration
                  (exec (print [Str "Excluding test "; Str name; Endl]) p)
      else
        let p1 := exec (print (running_line name)) p in
        let (r, p2) := worker test p1 in
        match wait_for timeout_s (steady_clock p1) r p2 with
        | timeout =>
            (Stopped (Exited EXIT_FAILURE),
             exec (print (timeout_message name timeout_s))
                  (at_deadline test timeout_s p1))
        | no_timeout =>
            match r with
            | Ret (test_start_time, test_end_time) =>
                if Test_Failed p2 then (Stopped (Returned EXIT_FAILURE), p2)
                else
                  let test_duration := (test_end_time - test_start_time)%Z in
                  run_tests exclusions rest
                            (total_duration + test_duration)%Z
                            (exec (print ([Str " ("] ++
                                          FriendlyDuration test_duration ++
                                          [Str ")"; Endl])) p2)
            | _ => (Stopped Terminated, p2)
            end
        end
  end.

(** The statements of [main] between the two checks and the loop. *)
Definition before_loop (tests : list TestCase) : M unit :=
  AssignMessageStrings ;;
  print [Str "Total numbers of tests: ";
         Num (N.of_nat (List.length tests)); Endl].

(** [main].  The two handlers around the loop are entered only when a
    statement of the controller itself throws (the thread cannot be started,
    a copy of the tuple cannot be allocated); the controller of this model
    has no such failure, and what a test body throws is caught inside the
    worker. *)
Definition main (reg : Registry) (p : Process) : Exit * Process :=
  match Unit_Tests reg with
  | None | Some [] =>
      (Returned EXIT_FAILURE,
       exec (print [Str "Error: there are no registered tests"; Endl]) p)
  | Some tests =>
      if negb (failed_registrations reg =? 0) then
        (Returned EXIT_FAILURE,
         exec (print [Str "Error: "; Num (failed_registrations reg);
                      Str " tests failed to register to get excluded"; Endl])
              p)
      else
        let p0 := exec (before_loop tests) p in
        match run_tests (Unit_Test_Exclusions reg) tests 0 p0 with
        | (Completed total_duration, p') =>
            (Returned EXIT_SUCCESS,
             exec (print ([Str "All test(s) passed successfully ("] ++
                          FriendlyDuration total_duration ++
                          [Str " total)"; Endl])) p')
        | (Stopped e, p') => (e, p')
        end
  end.

(** ** Vocabulary of the statements *)

(** The two ranges of [n] octets at [a] and [b] hold the same octets. *)
Definition ranges_equal (mem : Memory) (a b n : N) : Prop :=
  forall i, i < n -> mem (a + i) = mem (b + i).

(** The two ranges differ at offset [k] and nowhere else. *)
Definition ranges_differ_only_at (mem : Memory) (a b n k : N) : Prop :=
  k < n /\ mem (a + k) <> mem (b + k) /\
  forall i, i < n -> i <> k -> mem (a + i) = mem (b + i).

(** The tests held by the registry ([*Unit_Tests], empty before the storage
    exists). *)
Definition registered_tests (r : Registry) : list TestCase :=
  match Unit_Tests r with
  | Some tests => tests
  | None => []
  end.

(** Every allocation that one call of [RegisterTest] asks for succeeds. *)
Definition storage_allocated (heap : Allocator) (r : Registry) : bool :=
  (match Unit_Tests r with Some _ => true | None => make_unique_ok heap end)
  && emplace_back_ok heap.

(** The loop of [main], started on the registry [pre ++ rest], has visited
    the tests of [pre] without ending the process and is about to visit
    [rest], with [total] accumulated and the process in state [p]. *)
Definition loop_reaches (reg : Registry) (pre rest : list TestCase)
    (p_init : Process) (total : Z) (p : Process) : Prop :=
  Unit_Tests reg = Some (pre ++ rest) /\
  failed_registrations reg = 0 /\
  run_tests (Unit_Test_Exclusions reg) pre 0
            (exec (before_loop (pre ++ rest)) p_init)
  = (Completed total, p).


(** ** Sample programs (src/test) *)

(** A process before [main]: empty message strings, [Test_Failed] clear,
    nothing printed, memory zeroed. *)
Definition initial_process : Process :=
  mkProcess EmptyString EmptyString EmptyString EmptyString false [] 0
            (fun _ => x00%byte) None.

(** A body that takes [ns] nanoseconds and a body that never returns.  A
    body that is observed until a deadline and would still be busy then is
    stopped there, the clock showing the deadline. *)
Definition elapse (ns : Z) : M unit :=
  fun p =>
    let busy_until := (steady_clock p + ns)%Z in
    match deadline p with
    | Some d =>
        if (d <=? busy_until)%Z
        then (Hang, set_clock (Z.max (steady_clock p) d) p)
        else (Ret tt, set_clock busy_until p)
    | None => (Ret tt, set_clock busy_until p)
    end.

Definition never_returns : Callable :=
  fun p =>
    (Hang,
     match deadline p with
     | Some d => set_clock (Z.max (steady_clock p) d) p
     | None => p
     end).

(** test/miscellaneous/test_miscellaneous.cpp *)
Definition TestToRun : Callable :=
  elapse 1500 ;; STF_ASSERT_TRUE "test_miscellaneous.cpp" 23 true (ret tt).

Definition TestToExclude : Callable :=
  elapse 700 ;; STF_ASSERT_TRUE "test_miscellaneous.cpp" 30 false (ret tt).

Definition AnotherTestToRun : Callable :=
  elapse 2000000 ;; STF_ASSERT_TRUE "test_miscellaneous.cpp" 35 true (ret tt).

Definition SecondTestToExclude : Callable :=
  STF_ASSERT_TRUE "test_miscellaneous.cpp" 42 false (ret tt).

Definition register (name : string) (test : Callable) (r : Registry)
  : Registry :=
  snd (RegisterTest (mkAllocator true true) name test Default_Timeout r).

Definition exclude (name : string) (r : Registry) : Registry :=
  snd (ExcludeTest (mkAllocator true true) name r).

Definition miscellaneous_registry : Registry :=
  exclude "Miscellaneous::SecondTestToExclude"
    (exclude "Miscellaneous::TestToExclude"
      (register "Miscellaneous::SecondTestToExclude" SecondTestToExclude
        (register "Miscellaneous::AnotherTestToRun" AnotherTestToRun
          (register "Miscellaneous::TestToExclude" TestToExclude
            (register "Miscellaneous::TestToRun" TestToRun empty_registry))))).

(** The same tests with nothing excluded: the second one fails. *)
Definition failing_registry : Registry :=
  register "Miscellaneous::AnotherTestToRun" AnotherTestToRun
    (register "Miscellaneous::TestToExclude" TestToExclude
      (register "Miscellaneous::TestToRun" TestToRun empty_registry)).

(** A registry whose second test never returns, with a 2 second timeout. *)
Definition hanging_registry : Registry :=
  register "Miscellaneous::AnotherTestToRun" AnotherTestToRun
    (snd (RegisterTest (mkAllocator true true) "Miscellaneous::Stalled"
                       never_returns 2
            (register "Miscellaneous::TestToRun" TestToRun empty_registry))).

(** test/exceptions/test_exceptions.cpp *)
Definition std_exception : ExnType := Class "std::exception" [].
Definition std_runtime_error : ExnType :=
  Class "std::runtime_error" [public_base std_exception].
Definition CustomException : ExnType :=
  Class "CustomException" [public_base std_runtime_error].
Definition const_char_ptr : ExnType := Class "const char*" [].

(** A hierarchy that the tests do not have: [Left] and [Right] both derive
    from [Root], not virtually, and [Both] derives from the two; an object
    of class [Both] holds two subobjects of class [Root]. *)
Definition Root : ExnType := Class "Root" [].
Definition Left : ExnType := Class "Left" [public_base Root].
Definition Right : ExnType := Class "Right" [public_base Root].
Definition Both : ExnType :=
  Class "Both" [public_base Left; public_base Right].


(** The same with [Root] as a virtual base of both: one subobject. *)
Definition virtual_base (B : ExnType) : BaseSpecifier * ExnType :=
  (mkBaseSpecifier true true, B).
Definition Both_virtual : ExnType :=
  Class "Both" [public_base (Class "Left" [virtual_base Root]);
                public_base (Class "Right" [virtual_base Root])].

(** A class that derives privately from [Root]. *)
Definition Hidden : ExnType :=
  Class "Hidden" [(mkBaseSpecifier false false, Root)].

(** The class that derives publicly from the first of [ancestors], which
    derives publicly from the next, and so on: single inheritance. *)
Fixpoint chain (n : string) (ancestors : list string) : ExnType :=
  match ancestors with
  | [] => Class n []
  | a :: rest => Class n [public_base (chain a rest)]
  end.

Definition test_throw_unnamed : Callable :=
  throw (mkException const_char_ptr EmptyString).
Definition test_throw_named : Callable :=
  throw (mkException CustomException EmptyString).

(** test/memory/test_memory.cpp: [c_array1] at address 16 and [c_array2] at
    address 32, as in Memory.Test2. *)
Definition memory_Test2 : Memory :=
  fun a =>
    match a with
    | 16 => x01 | 17 => x02 | 18 => x08 | 19 => x04
    | 32 => x01 | 33 => x02 | 34 => x08 | 35 => x05
    | _ => x00
    end%byte.

Definition process_Test2 : Process :=
  mkProcess "  expected: " "    actual: " "  lhs: " "  rhs: " false [] 0
            memory_Test2 None.

(** The registered tuples of the sample registries. *)
Definition case_TestToRun : TestCase :=
  mkTest "Miscellaneous::TestToRun" TestToRun Default_Timeout.
Definition case_TestToExclude : TestCase :=
  mkTest "Miscellaneous::TestToExclude" TestToExclude Default_Timeout.
Definition case_AnotherTestToRun : TestCase :=
  mkTest "Miscellaneous::AnotherTestToRun" AnotherTestToRun Default_Timeout.
Definition case_Stalled : TestCase :=
  mkTest "Miscellaneous::Stalled" never_returns 2.

(** The process when the loop of [main] arrives at the second test of a
    three-test registry whose first test is [TestToRun], and when the worker
    of that second test is done with it. *)
Definition at_second_test : Process :=
  snd (run_tests None [case_TestToRun] 0
         (exec (before_loop [case_TestToRun; case_TestToExclude;
                             case_AnotherTestToRun]) initial_process)).

Definition after_failing_worker : Process :=
  snd (worker TestToExclude
         (exec (print (running_line "Miscellaneous::TestToExclude"))
               at_second_test)).

Definition after_stalled_worker : Process :=
  at_deadline never_returns 2
    (exec (print (running_line "Miscellaneous::Stalled")) at_second_test).

(** ** Registration macros (stf.h) *)

(** [#group "::" #test]. *)
Definition qualified_name (group test : string) : string :=
  (group ++ "::" ++ test)%string.

(** The registration macros of a test program; each runs its call while the
    statics of the program are initialised. *)
Inductive Declaration : Type :=
| STF_TEST (group test : string) (body : Callable)
| STF_TEST_TIMEOUT (group test : string) (body : Callable) (timeout_arg : Z)
| STF_TEST_EXCLUDE (group test : string).

(** The conversion of an integer argument to the [unsigned] parameter of
    [RegisterTest]. *)
Definition to_unsigned (z : Z) : N := Z.to_N (z mod Z.of_N UINT_MODULUS).

(** The registry after the call made by one macro, the allocator answering
    [heap]. *)
Definition declare (heap : Allocator) (d : Declaration) (r : Registry)
  : Registry :=
  match d with
  | STF_TEST group test body =>
      snd (RegisterTest heap (qualified_name group test) body
                        Default_Timeout r)
  | STF_TEST_TIMEOUT group test body timeout_arg =>
      snd (RegisterTest heap (qualified_name group test) body
                        (to_unsigned timeout_arg) r)
  | STF_TEST_EXCLUDE group test =>
      snd (ExcludeTest heap (qualified_name group test) r)
  end.

(** The calls of a program's macros, in the order in which they run. *)
Fixpoint static_initialization (decls : list (Allocator * Declaration))
    (r : Registry) : Registry :=
  match decls with
  | [] => r
  | (heap, d) :: rest => static_initialization rest (declare heap d r)
  end.

(** ** Hex adapters (adapters/integral_vector.h, adapters/integral_array.h) *)

(** The width of [int], in bits. *)
Definition INT_BITS : N := 32.

(** [+x] for [x] of an integral type of [sizeof_T] octets, as a stream in
    [std::hex] prints it: [x] is promoted to [int] when its type is
    narrower, and the number printed is the unsigned number with the same
    bits, so a negative [x] shows as its two's complement in the width of
    the promoted type. *)
Definition hex_operand (sizeof_T : nat) (x : Z) : N :=
  Z.to_N (x mod 2 ^ Z.of_N (N.max INT_BITS (8 * N.of_nat sizeof_T))).

(** The loop of both [operator<<]: [if (i) oss << " "; oss << std::setw(sizeof(T) * 2) << +vec[i];]
    over the elements, [i] being the index of the first of them.  Elements
    are values of an integral type of [sizeof_T] octets, signed or not. *)
Fixpoint hex_elements_loop (sizeof_T : nat) (elements : list Z) (i : N)
  : ostream :=
  match elements with
  | [] => []
  | x :: rest =>
      (if 0 <? i then [Str " "] else []) ++
      Hex (sizeof_T * 2) (hex_operand sizeof_T x) ::
      hex_elements_loop sizeof_T rest (i + 1)
  end.

(** [o << vec] for a [std::vector<T>] and [o << array] for a
    [std::array<T, N>], [T] taking [sizeof_T] octets: what is inserted into
    [o]. *)
Definition insert_integral_vector (sizeof_T : nat) (vec : list Z) : ostream :=
  Str "0x" :: hex_elements_loop sizeof_T vec 0.

Definition insert_integral_array (sizeof_T : nat) (array : list Z) : ostream :=
  Str "0x" :: hex_elements_loop sizeof_T array 0.

(** ** Vocabulary of the further statements *)

(** Every allocation that one call of [ExcludeTest] asks for succeeds. *)
Definition exclusions_allocated (heap : Allocator) (r : Registry) : bool :=
  (match Unit_Test_Exclusions r with
   | Some _ => true
   | None => make_unique_ok heap
   end) && emplace_back_ok heap.

(** The tests and the exclusions that a list of macros declares. *)
Fixpoint declared_tests (decls : list Declaration) : list TestCase :=
  match decls with
  | [] => []
  | STF_TEST group test body :: rest =>
      mkTest (qualified_name group test) body Default_Timeout ::
      declared_tests rest
  | STF_TEST_TIMEOUT group test body timeout_arg :: rest =>
      mkTest (qualified_name group test) body (to_unsigned timeout_arg) ::
      declared_tests rest
  | STF_TEST_EXCLUDE _ _ :: rest => declared_tests rest
  end.

Fixpoint declared_exclusions (decls : list Declaration) : list string :=
  match decls with
  | [] => []
  | STF_TEST_EXCLUDE group test :: rest =>
      qualified_name group test :: declared_exclusions rest
  | _ :: rest => declared_exclusions rest
  end.

(** The names held by the exclusion storage (none before it exists). *)
Definition excluded_names (r : Registry) : list string :=
  match Unit_Test_Exclusions r with
  | Some names => names
  | None => []
  end.

(** Hex items with one space between neighbours and none at the ends. *)
Fixpoint space_separated (width : nat) (elements : list N) : ostream :=
  match elements with
  | [] => []
  | x :: rest =>
      match rest with
      | [] => [Hex width x]
      | _ :: _ => Hex width x :: Str " " :: space_separated width rest
      end
  end.

(** The [n] octets of memory from address [base] on, as numbers. *)
Definition octets (mem : Memory) (base : N) (n : N) : list N :=
  map (fun i => Byte.to_N (mem (base + N.of_nat i))) (seq 0 (N.to_nat n)).

(** [p'] is [p] with [out] added at the end of [std::cout] and nothing else
    changed. *)
Definition printed (p : Process) (out : ostream) (p' : Process) : Prop :=
  p' = mkProcess (ExpectText p) (ActualText p) (LHSText p) (RHSText p)
                 (Test_Failed p) (cout p ++ out) (steady_clock p) (memory p)
                 (deadline p).

(** The notices of the loop of [main] for a list of excluded tests. *)
Definition exclusion_notices (tests : list TestCase) : ostream :=
  flat_map (fun t => [Str "Excluding test "; Str (test_name t); Endl]) tests.

(** The last line of a successful run. *)
Definition summary_line (total_duration : Z) : ostream :=
  [Str "All test(s) passed successfully ("] ++
  FriendlyDuration total_duration ++ [Str " total)"; Endl].

(** What the worker prints for an exception that leaves the test body. *)
Definition unexpected_exception_report (e : Exception) : ostream :=
  if handler_matches "std::exception" (dynamic_type e)
  then [Endl; Str "Unexpected exception thrown: "; Str (what e); Endl]
  else [Endl; Str "Unexpected exception thrown"; Endl].

(** A body that throws after [ns] nanoseconds. *)
Definition throws_after (ns : Z) (e : Exception) : Callable :=
  elapse ns ;; throw e.

Definition case_Throwing : TestCase :=
  mkTest "Miscellaneous::Throwing"
         (throws_after 300 (mkException CustomException "broken"))
         Default_Timeout.

(** A body that prints, works for three seconds, then prints again and
    fails, registered with a timeout of two seconds. *)
Definition late_body : Callable :=
  print [Str "step 1"; Endl] ;;
  elapse 3000000000 ;;
  print [Str "step 2"; Endl] ;;
  set_Test_Failed true.

Definition case_Late : TestCase := mkTest "Miscellaneous::Late" late_body 2.

Definition late_registry : Registry :=
  mkRegistry (Some [case_TestToRun; case_Late; case_AnotherTestToRun]) None 0.




(** test/adapters/test_adapters.cpp, [vec_1]. *)
Definition vec_1 : list Z :=
  [0; 17; 34; 51; 68; 85; 102; 119; 136; 153; 170; 187; 204; 221; 238; 255]%Z.

(** The allocator refuses something that the call of a macro asks for. *)
Definition refused (heap : Allocator) (d : Declaration) (r : Registry) : bool :=
  match d with
  | STF_TEST _ _ _ | STF_TEST_TIMEOUT _ _ _ _ =>
      negb (storage_allocated heap r)
  | STF_TEST_EXCLUDE _ _ => negb (exclusions_allocated heap r)
  end.

(** The number of calls that are refused while the statics are
    initialised. *)
Fixpoint refusals (decls : list (Allocator * Declaration)) (r : Registry)
  : nat :=
  match decls with
  | [] => O
  | (heap, d) :: rest =>
      ((if refused heap d r then 1 else 0) +
       refusals rest (declare heap d r))%nat
  end.

(** An allocator that grants everything. *)
Definition generous : Allocator := mkAllocator true true.

(** The declarations of test/miscellaneous/test_miscellaneous.cpp. *)
Definition miscellaneous_declarations : list Declaration :=
  [STF_TEST "Miscellaneous" "TestToRun" TestToRun;
   STF_TEST "Miscellaneous" "TestToExclude" TestToExclude;
   STF_TEST "Miscellaneous" "AnotherTestToRun" AnotherTestToRun;
   STF_TEST "Miscellaneous" "SecondTestToExclude" SecondTestToExclude;
   STF_TEST_EXCLUDE "Miscellaneous" "TestToExclude";
   STF_TEST_EXCLUDE "Miscellaneous" "SecondTestToExclude"].

(** The same program when the allocator refuses the third registration. *)
Definition miscellaneous_with_refusal : list (Allocator * Declaration) :=
  [(generous, STF_TEST "Miscellaneous" "TestToRun" TestToRun);
   (generous, STF_TEST "Miscellaneous" "TestToExclude" TestToExclude);
   (mkAllocator true false,
    STF_TEST "Miscellaneous" "AnotherTestToRun" AnotherTestToRun);
   (generous, STF_TEST_EXCLUDE "Miscellaneous" "TestToExclude")].

(** Registries of three tests whose second test throws, and whose second
    test is registered with a timeout of zero seconds. *)
Definition throwing_registry : Registry :=
  mkRegistry (Some [case_TestToRun; case_Throwing; case_AnotherTestToRun])
             None 0.


(** A registry whose tests are all excluded. *)
Definition all_excluded_registry : Registry :=
  mkRegistry (Some [case_TestToExclude;
                    mkTest "Miscellaneous::SecondTestToExclude"
                           SecondTestToExclude Default_Timeout])
             (Some ["Miscellaneous::SecondTestToExclude";
                    "Miscellaneous::TestToExclude"])
             0.

(** * Properties *)

(** ** The monad *)

Lemma bind_ret_l {A B} (a : A) (k : A -> M B) p : bind (ret a) k p = k a p.
Proof. reflexivity. Qed.

Lemma bind_get {B} (k : Process -> M B) p : bind get k p = k p p.
Proof. reflexivity. Qed.

(** ** Memory assertions *)

Lemma compare_loop_spec mem left right count : forall i,
  match compare_loop mem left right count i with
  | (true, k) =>
      k = i + N.of_nat count /\
      forall j, i <= j < i + N.of_nat count -> mem (left + j) = mem (right + j)
  | (false, k) =>
      i <= k < i + N.of_nat count /\
      mem (left + k) <> mem (right + k) /\
      forall j, i <= j < k -> mem (left + j) = mem (right + j)
  end.
Proof.
  induction count as [|count IH]; intros i; cbn [compare_loop].
  - split; [lia | intros j Hj; lia].
  - destruct (Byte.eqb (mem (left + i)) (mem (right + i))) eqn:E.
    + apply Byte.byte_dec_bl in E.
      specialize (IH (i + 1)).
      destruct (compare_loop mem left right count (i + 1)) as [[|] k].
      * destruct IH as [Hk Hall]. split; [lia|].
        intros j Hj. destruct (N.eq_dec j i) as [->|Hne]; [exact E|].
        apply Hall. lia.
      * destruct IH as [Hk [Hd Hall]]. split; [lia|]. split; [exact Hd|].
        intros j Hj. destruct (N.eq_dec j i) as [->|Hne]; [exact E|].
        apply Hall. lia.
    + apply Byte.eqb_false in E.
      split; [lia|]. split; [exact E|]. intros j Hj; lia.
Qed.

(** The flag [equal] after the loop says whether the ranges are equal. *)
Lemma compare_loop_equal mem a b n :
  fst (compare_loop mem a b (N.to_nat n) 0) = true <-> ranges_equal mem a b n.
Proof.
  pose proof (compare_loop_spec mem a b (N.to_nat n) 0) as H.
  destruct (compare_loop mem a b (N.to_nat n) 0) as [[|] k]; cbn [fst].
  - destruct H as [_ Hall]. split; [intros _|reflexivity].
    intros i Hi. apply Hall. lia.
  - destruct H as [Hk [Hd _]]. split; [discriminate|].
    intros Heq. exfalso. apply Hd, Heq. lia.
Qed.

Lemma ranges_equal_dec mem a b n :
  ranges_equal mem a b n \/
  exists i, i < n /\ mem (a + i) <> mem (b + i).
Proof.
  pose proof (compare_loop_spec mem a b (N.to_nat n) 0) as H.
  destruct (compare_loop mem a b (N.to_nat n) 0) as [[|] k].
  - left. destruct H as [_ Hall]. intros i Hi. apply Hall. lia.
  - right. destruct H as [Hk [Hd _]]. exists k. split; [lia|exact Hd].
Qed.

(** The result of [AssertMemoryEqual] is the flag [equal]. *)
Lemma AssertMemoryEqual_result file line a b n p :
  fst (AssertMemoryEqual file line a b n p) =
  Ret (fst (compare_loop (memory p) a b (N.to_nat n) 0)).
Proof.
  unfold AssertMemoryEqual. rewrite bind_get.
  destruct (fst (compare_loop (memory p) a b (N.to_nat n) 0)); reflexivity.
Qed.

(** The result of [AssertMemoryNotEqual] is the negation of [equal]. *)
Lemma AssertMemoryNotEqual_result file line a b n p :
  fst (AssertMemoryNotEqual file line a b n p) =
  Ret (negb (fst (compare_loop (memory p) a b (N.to_nat n) 0))).
Proof.
  unfold AssertMemoryNotEqual. rewrite bind_get.
  destruct (fst (compare_loop (memory p) a b (N.to_nat n) 0)); reflexivity.
Qed.

(** C3: [AssertMemoryEqual] returns true exactly when all [n] corresponding
    octets are equal, and [AssertMemoryNotEqual] returns true exactly when
    some corresponding octets differ.  The loop compares octet by octet from
    offset 0 and is left at the first mismatch.  Ranges that differ in
    exactly one octet fail equality and pass inequality; identical ranges
    pass equality and fail inequality; for [n = 0] equality succeeds. *)
Theorem AssertMemory_octet_by_octet :
  forall (file : string) (line a b n : N) (p : Process),
    (fst (AssertMemoryEqual file line a b n p) = Ret true <->
     ranges_equal (memory p) a b n) /\
    (fst (AssertMemoryNotEqual file line a b n p) = Ret true <->
     exists i, i < n /\ memory p (a + i) <> memory p (b + i)) /\
    (forall k, compare_loop (memory p) a b (N.to_nat n) 0 = (false, k) ->
       k < n /\ memory p (a + k) <> memory p (b + k) /\
       forall j, j < k -> memory p (a + j) = memory p (b + j)) /\
    (forall k, ranges_differ_only_at (memory p) a b n k ->
       fst (AssertMemoryEqual file line a b n p) = Ret false /\
       fst (AssertMemoryNotEqual file line a b n p) = Ret true) /\
    (ranges_equal (memory p) a b n ->
       fst (AssertMemoryEqual file line a b n p) = Ret true /\
       fst (AssertMemoryNotEqual file line a b n p) = Ret false) /\
    fst (AssertMemoryEqual file line a b 0 p) = Ret true.
Proof.
  intros file line a b n p.
  rewrite AssertMemoryEqual_result, AssertMemoryNotEqual_result.
  pose proof (compare_loop_equal (memory p) a b n) as Heq.
  pose proof (compare_loop_spec (memory p) a b (N.to_nat n) 0) as Hspec.
  assert (Hne : (exists i, i < n /\ memory p (a + i) <> memory p (b + i)) ->
                fst (compare_loop (memory p) a b (N.to_nat n) 0) = false).
  { intros [i [Hi Hd]].
    destruct (fst (compare_loop (memory p) a b (N.to_nat n) 0)) eqn:E;
      [|reflexivity].
    exfalso. apply Hd. apply Heq; [reflexivity|exact Hi]. }
  split; [|split; [|split; [|split; [|split]]]].
  - split; intros H.
    + apply Heq. congruence.
    + apply Heq in H. rewrite H. reflexivity.
  - split; intros H.
    + destruct (compare_loop (memory p) a b (N.to_nat n) 0) as [[|] k];
        cbn [fst negb] in H; [discriminate|].
      destruct Hspec as [Hk [Hd _]]. exists k. split; [lia|exact Hd].
    + rewrite (Hne H). reflexivity.
  - intros k H. rewrite H in Hspec. destruct Hspec as [Hk [Hd Hall]].
    split; [lia|]. split; [exact Hd|]. intros j Hj. apply Hall. lia.
  - intros k [Hk [Hd _]].
    rewrite Hne; [split; reflexivity|]. exists k. split; assumption.
  - intros H. apply Heq in H. rewrite H. split; reflexivity.
  - rewrite AssertMemoryEqual_result. reflexivity.
Qed.

(** C10: on the same arguments the two memory assertions return opposite
    booleans, for every length; for length 0 the equality assertion succeeds
    and the inequality assertion fails. *)
Theorem AssertMemoryNotEqual_negates_Equal :
  forall (file : string) (line a b n : N) (p : Process),
    (exists equal : bool,
        fst (AssertMemoryEqual file line a b n p) = Ret equal /\
        fst (AssertMemoryNotEqual file line a b n p) = Ret (negb equal)) /\
    fst (AssertMemoryEqual file line a b 0 p) = Ret true /\
    fst (AssertMemoryNotEqual file line a b 0 p) = Ret false.
Proof.
  intros file line a b n p. split; [|split].
  - exists (fst (compare_loop (memory p) a b (N.to_nat n) 0)).
    split.
    + apply AssertMemoryEqual_result.
    + apply AssertMemoryNotEqual_result.
  - rewrite AssertMemoryEqual_result. reflexivity.
  - rewrite AssertMemoryNotEqual_result. reflexivity.
Qed.

(** ** Exception handlers *)



Lemma ends_in_last T path n : ends_in T (path ++ [n]) = String.eqb n T.
Proof. unfold ends_in. rewrite rev_app_distr. reflexivity. Qed.




(** A [catch (const T &)] handler accepts exactly the objects whose type is
    [T] or has [T] as an unambiguous public base class. *)
Lemma handler_matches_iff T E :
  handler_matches T E = true <->
  type_name E = T \/ unambiguous_public_base T E = true.
Proof.
  unfold handler_matches. rewrite orb_true_iff, String.eqb_eq. reflexivity.
Qed.

(** What a failing [AssertException<T>] inserts into [std::cout], given the
    message strings in force and the text of the last line. *)
Lemma AssertException_T_run T file line function name p :
  AssertException_T T file line function name p =
  match function p with
  | (Ret _, p') =>
      (Ret false,
       exec (print [Endl; Str "Assertion failed at "; Str file; Str ":";
                    Num line; Endl;
                    Str (ExpectText p');
                    Str ("exception of type " ++ name)%string; Endl;
                    Str (ActualText p'); Str "no exception thrown"; Endl]) p')
  | (Raise e, p') =>
      if handler_matches T (dynamic_type e) then (Ret true, p')
      else
        (Ret false,
         exec (print [Endl; Str "Assertion failed at "; Str file; Str ":";
                      Num line; Endl;
                      Str (ExpectText p');
                      Str ("exception of type " ++ name)%string; Endl;
                      Str (ActualText p'); Str "some other exception thrown";
                      Endl]) p')
  | (Hang, p') => (Hang, p')
  end.
Proof.
  unfold AssertException_T, try_block, bind.
  destruct (function p) as [[[]|e|] p']; cbn [select_handler].
  - cbn. unfold exec, print. cbn. rewrite <- !app_assoc. reflexivity.
  - destruct (handler_matches T (dynamic_type e)); [reflexivity|].
    cbn. unfold exec, print. cbn. rewrite <- !app_assoc. reflexivity.
  - reflexivity.
Qed.

Lemma AssertException_run file line function p :
  AssertException file line function p =
  match function p with
  | (Ret _, p') =>
      (Ret false,
       exec (print [Endl; Str "Assertion failed at "; Str file; Str ":";
                    Num line; Endl;
                    Str (ExpectText p'); Str "any exception thrown"; Endl;
                    Str (ActualText p'); Str "no exception thrown"; Endl]) p')
  | (Raise e, p') => (Ret true, p')
  | (Hang, p') => (Hang, p')
  end.
Proof.
  unfold AssertException, try_block, bind.
  destruct (function p) as [[[]|e|] p']; [|reflexivity|reflexivity].
  cbn. unfold exec, print. cbn. rewrite <- !app_assoc. reflexivity.
Qed.



(** ** AssertClose *)

Lemma AssertClose_result f file line lhs rhs epsilon p :
  fst (AssertClose f file line lhs rhs epsilon p) =
  Ret (SFltb (SFabs (SFsub (prec f) (emax f) lhs rhs)) epsilon).
Proof.
  unfold AssertClose.
  destruct (SFltb (SFabs (SFsub (prec f) (emax f) lhs rhs)) epsilon);
    reflexivity.
Qed.

(** C5: in each format, [AssertClose] returns true exactly when
    [abs(lhs - rhs) < epsilon] holds for the subtraction, absolute value and
    comparison of that format (a comparison with a NaN is false).  In
    [double], [AssertClose(100.00001, 100.00002, 0.0001)] returns true and
    [AssertClose(1.0, 2.0, 0.1)] returns false; the same holds for the
    [float] and [long double] overloads. *)
Theorem AssertClose_abs_difference_below_epsilon :
  forall (file : string) (line : N) (p : Process),
    (forall (f : Format) (lhs rhs epsilon : spec_float),
        (fst (AssertClose f file line lhs rhs epsilon p) = Ret true <->
         SFcompare (SFabs (SFsub (prec f) (emax f) lhs rhs)) epsilon
         = Some Lt) /\
        (fst (AssertClose f file line lhs rhs epsilon p) = Ret false <->
         SFcompare (SFabs (SFsub (prec f) (emax f) lhs rhs)) epsilon
         <> Some Lt)) /\
    (forall f, In f [binary32; binary64; x87_extended] ->
        fst (AssertClose f file line (literal f 10000001 100000)
                         (literal f 10000002 100000) (literal f 1 10000) p)
        = Ret true /\
        fst (AssertClose f file line (literal f 1 1) (literal f 2 1)
                         (literal f 1 10) p)
        = Ret false).
Proof.
  intros file line p. split.
  - intros f lhs rhs epsilon. rewrite AssertClose_result. unfold SFltb.
    destruct (SFcompare (SFabs (SFsub (prec f) (emax f) lhs rhs)) epsilon)
      as [[| |]|]; (split; split; intros H);
      try reflexivity; try discriminate; try congruence.
  - intros f Hf. rewrite !AssertClose_result.
    cbn [In] in Hf.
    destruct Hf as [<- | [<- | [<- | []]]]; split; vm_compute; reflexivity.
Qed.

(** ** The registry *)

(** C8: when the storage can be allocated, [RegisterTest] appends the test
    (name, body, timeout) at the end of the registered sequence, returns the
    new size, which is not 0, and leaves [failed_registrations] and the
    exclusions unchanged.  When an allocation fails it returns 0, adds one to
    [failed_registrations] (an [unsigned], so modulo [2^32]) and registers
    nothing; no exception leaves the function. *)
Theorem RegisterTest_appends_or_counts_failure :
  forall (heap : Allocator) (name : string) (test : Callable) (timeout : N)
         (r : Registry),
    (storage_allocated heap r = true ->
       registered_tests (snd (RegisterTest heap name test timeout r)) =
         registered_tests r ++ [mkTest name test timeout] /\
       Unit_Tests (snd (RegisterTest heap name test timeout r)) =
         Some (registered_tests r ++ [mkTest name test timeout]) /\
       fst (RegisterTest heap name test timeout r) =
         N.of_nat (List.length (registered_tests r)) + 1 /\
       fst (RegisterTest heap name test timeout r) <> 0 /\
       failed_registrations (snd (RegisterTest heap name test timeout r)) =
         failed_registrations r /\
       Unit_Test_Exclusions (snd (RegisterTest heap name test timeout r)) =
         Unit_Test_Exclusions r) /\
    (storage_allocated heap r = false ->
       fst (RegisterTest heap name test timeout r) = 0 /\
       failed_registrations (snd (RegisterTest heap name test timeout r)) =
         (failed_registrations r + 1) mod UINT_MODULUS /\
       (failed_registrations r + 1 < UINT_MODULUS ->
        failed_registrations (snd (RegisterTest heap name test timeout r)) =
          failed_registrations r + 1) /\
       registered_tests (snd (RegisterTest heap name test timeout r)) =
         registered_tests r /\
       Unit_Test_Exclusions (snd (RegisterTest heap name test timeout r)) =
         Unit_Test_Exclusions r).
Proof.
  intros [mk em] name test timeout [tests excl failed].
  unfold storage_allocated, RegisterTest, RegisterTest_try, registered_tests,
    increment_failed.
  cbn [Unit_Tests Unit_Test_Exclusions failed_registrations
       make_unique_ok emplace_back_ok].
  split; intros H.
  - destruct tests as [tests|]; [|destruct mk; [|discriminate]];
      (destruct em; [|rewrite andb_false_r in H; discriminate]);
      cbn [fst snd Unit_Tests Unit_Test_Exclusions failed_registrations app];
      rewrite ?length_app; cbn [List.length];
      repeat split; try reflexivity; lia.
  - destruct tests as [tests|]; [|destruct mk];
      (destruct em; [discriminate|]) || idtac;
      cbn [fst snd Unit_Tests Unit_Test_Exclusions failed_registrations];
      repeat split; try reflexivity;
      try (intros Hlt; apply N.mod_small; exact Hlt).
Qed.

(** ** FriendlyDuration *)

(** C9: for every duration [d] (in nanoseconds) [FriendlyDuration] prints
    one number and the suffix of one unit among seconds, milliseconds and
    microseconds.  The number is [d] in that unit, carried to thousandths of
    the unit.  Whenever [d] is at least one microsecond the unit is not
    larger than [d] and the number is at least 1; and every coarser unit is
    larger than [d], so no coarser unit would show a number of at least 1. *)
Theorem FriendlyDuration_coarsest_unit :
  forall d : Z,
    exists (u : TimeUnit) (thousandths : Z),
      FriendlyDuration d = [Dbl (thousandths # 1000); Str (unit_suffix u)] /\
      thousandths = Z.quot d (nanoseconds_per u / 1000) /\
      ((1000 <= d)%Z ->
         (nanoseconds_per u <= d)%Z /\ (1 <= thousandths # 1000)%Q) /\
      (forall u' : TimeUnit,
          (nanoseconds_per u < nanoseconds_per u')%Z ->
          (d < nanoseconds_per u')%Z).
Proof.
  intros d. unfold FriendlyDuration.
  destruct (1000000000 <=? d)%Z eqn:Hs; [|destruct (1000000 <=? d)%Z eqn:Hm].
  - apply Z.leb_le in Hs.
    exists Seconds, (Z.quot d 1000000). cbn [unit_suffix nanoseconds_per].
    split; [reflexivity|]. split; [reflexivity|]. split.
    + intros _. split; [exact Hs|].
      unfold Qle; cbn [Qnum Qden].
      assert (1000 <= Z.quot d 1000000)%Z.
      { rewrite Z.quot_div_nonneg by lia.
        apply Z.div_le_lower_bound; lia. }
      lia.
    + intros [| |]; cbn [nanoseconds_per]; lia.
  - apply Z.leb_le in Hm. apply Z.leb_gt in Hs.
    exists Milliseconds, (Z.quot d 1000). cbn [unit_suffix nanoseconds_per].
    split; [reflexivity|]. split; [reflexivity|]. split.
    + intros _. split; [exact Hm|].
      unfold Qle; cbn [Qnum Qden].
      assert (1000 <= Z.quot d 1000)%Z.
      { rewrite Z.quot_div_nonneg by lia.
        apply Z.div_le_lower_bound; lia. }
      lia.
    + intros [| |]; cbn [nanoseconds_per]; lia.
  - apply Z.leb_gt in Hm. apply Z.leb_gt in Hs.
    exists Microseconds, d. cbn [unit_suffix nanoseconds_per].
    split; [reflexivity|]. split.
    + change (1000 / 1000)%Z with 1%Z. rewrite Z.quot_1_r. reflexivity.
    + split.
      * intros Hd. split; [exact Hd|].
        unfold Qle; cbn [Qnum Qden]. lia.
      * intros [| |]; cbn [nanoseconds_per]; lia.
Qed.

(** ** The runner *)

Section Runner.

Variable exclusions : option (list string).

(** The loop over a concatenation visits the first part, then the second,
    unless the process ends in the first. *)
Lemma run_tests_app (pre rest : list TestCase) :
  forall total p,
    run_tests exclusions (pre ++ rest) total p =
    match run_tests exclusions pre total p with
    | (Completed total', p') => run_tests exclusions rest total' p'
    | (Stopped e, p') => (Stopped e, p')
    end.
Proof.
  induction pre as [|t pre IH]; intros total p; [reflexivity|].
  cbn [app run_tests].
  destruct (exclude_test exclusions (test_name t)); [apply IH|].
  destruct (worker (test_body t) _) as [r p2].
  destruct (wait_for _ _ r p2); [|reflexivity].
  destruct r as [[s e]| |]; [|reflexivity|reflexivity].
  destruct (Test_Failed p2); [reflexivity|apply IH].
Qed.


(** One iteration on a test whose worker signals in time with
    [Test_Failed] set. *)
Lemma run_tests_failed t rest total p s e p2 :
  exclude_test exclusions (test_name t) = false ->
  worker (test_body t) (exec (print (running_line (test_name t))) p)
  = (Ret (s, e), p2) ->
  (steady_clock p2 - steady_clock p
   < Z.of_N (test_timeout t) * 1000000000)%Z ->
  Test_Failed p2 = true ->
  run_tests exclusions (t :: rest) total p
  = (Stopped (Returned EXIT_FAILURE), p2).
Proof.
  intros Hx Hw Ht Hf. cbn [run_tests]. rewrite Hx, Hw.
  unfold wait_for. cbn [exec print snd steady_clock].
  apply Z.ltb_lt in Ht. rewrite Ht, Hf. reflexivity.
Qed.


End Runner.

(** The inner loop finds a name exactly when the list holds that very
    string. *)
Lemma exclusion_loop_In (l : list string) (name : string) :
  exclusion_loop l name = true <-> In name l.
Proof.
  induction l as [|x l IH]; cbn [exclusion_loop In]; [split; [discriminate|tauto]|].
  destruct (String.eqb x name) eqn:E.
  - apply String.eqb_eq in E. split; [intros _; left; exact E | reflexivity].
  - apply String.eqb_neq in E. rewrite IH. split; [tauto|].
    intros [H|H]; [contradiction | exact H].
Qed.


(** [main] on a registry that passes both checks. *)
Lemma main_runs_loop reg tests p :
  Unit_Tests reg = Some tests -> tests <> [] ->
  failed_registrations reg = 0 ->
  main reg p =
  match run_tests (Unit_Test_Exclusions reg) tests 0
                  (exec (before_loop tests) p) with
  | (Completed total_duration, p') =>
      (Returned EXIT_SUCCESS,
       exec (print ([Str "All test(s) passed successfully ("] ++
                    FriendlyDuration total_duration ++
                    [Str " total)"; Endl])) p')
  | (Stopped e, p') => (e, p')
  end.
Proof.
  intros Ht Hne Hf. unfold main. rewrite Ht, Hf.
  destruct tests as [|t tests]; [contradiction|]. reflexivity.
Qed.

(** [main] when the loop has reached a suffix of the registry. *)
Lemma main_from reg pre rest p_init total p :
  rest <> [] ->
  loop_reaches reg pre rest p_init total p ->
  main reg p_init =
  match run_tests (Unit_Test_Exclusions reg) rest total p with
  | (Completed total_duration, p') =>
      (Returned EXIT_SUCCESS,
       exec (print ([Str "All test(s) passed successfully ("] ++
                    FriendlyDuration total_duration ++
                    [Str " total)"; Endl])) p')
  | (Stopped e, p') => (e, p')
  end.
Proof.
  intros Hne [Ht [Hf Hrun]].
  rewrite (main_runs_loop reg (pre ++ rest) p_init Ht); [|
    intros E; apply app_eq_nil in E; destruct E; contradiction | exact Hf].
  rewrite run_tests_app, Hrun. reflexivity.
Qed.


(** A worker hangs exactly when the test body does, and never throws. *)
Lemma worker_hangs test p :
  fst (test p) = Hang -> fst (worker test p) = Hang.
Proof.
  unfold worker, now, try_block, bind. cbn.
  destruct (test p) as [[[]|e|] p']; cbn [fst]; intros H;
    try discriminate; reflexivity.
Qed.

(** No exception leaves the worker: its last handler accepts everything and
    no handler throws, so [std::terminate] is never reached through it. *)
Lemma worker_never_throws test p e : fst (worker test p) <> Raise e.
Proof.
  unfold worker, now, try_block, bind. cbn.
  destruct (test p) as [[[]|e'|] p']; cbn [fst]; try discriminate.
  destruct (handler_matches "std::exception" (dynamic_type e'));
    cbn; discriminate.
Qed.

(** C1: the loop of [main] has reached test [t]; [t] is not excluded; its
    worker signals completion before the wait expires, leaving the process
    in state [p2]; and [Test_Failed] is set in [p2].  Then [main] returns
    [EXIT_FAILURE] and the process ends in state [p2] itself: nothing is
    printed after the worker has finished (no duration for [t], no summary
    line) and no test of [post] is run. *)
Theorem failed_test_stops_the_run :
  forall (reg : Registry) (pre post : list TestCase) (t : TestCase)
         (p_init p p2 : Process) (total test_start_time test_end_time : Z),
    loop_reaches reg pre (t :: post) p_init total p ->
    exclude_test (Unit_Test_Exclusions reg) (test_name t) = false ->
    worker (test_body t) (exec (print (running_line (test_name t))) p)
    = (Ret (test_start_time, test_end_time), p2) ->
    (steady_clock p2 - steady_clock p
     < Z.of_N (test_timeout t) * 1000000000)%Z ->
    Test_Failed p2 = true ->
    main reg p_init = (Returned EXIT_FAILURE, p2) /\
    run_tests (Unit_Test_Exclusions reg) (t :: post) total p
    = run_tests (Unit_Test_Exclusions reg) [t] total p.
Proof.
  intros reg pre post t p_init p p2 total s e Hreach Hx Hw Ht Hf.
  split.
  - rewrite (main_from reg pre (t :: post) p_init total p);
      [|discriminate|exact Hreach].
    rewrite (run_tests_failed _ t post total p s e p2 Hx Hw Ht Hf).
    reflexivity.
  - rewrite (run_tests_failed _ t post total p s e p2 Hx Hw Ht Hf).
    rewrite (run_tests_failed _ t [] total p s e p2 Hx Hw Ht Hf).
    reflexivity.
Qed.



(** C7: when no test is registered (no storage, or an empty sequence), or
    when [failed_registrations] is not zero, [main] returns [EXIT_FAILURE]
    after printing one diagnostic line and nothing else: the process state
    is the initial one with that line added to [std::cout], so no test body
    has run. *)
Theorem main_checks_registry_first :
  forall (reg : Registry) (p : Process),
    Unit_Tests reg = None \/ Unit_Tests reg = Some [] \/
    failed_registrations reg <> 0 ->
    exists diagnostic : ostream,
      diagnostic <> [] /\
      main reg p = (Returned EXIT_FAILURE, exec (print diagnostic) p) /\
      (Unit_Tests reg = None \/ Unit_Tests reg = Some [] ->
       diagnostic = [Str "Error: there are no registered tests"; Endl]).
Proof.
  intros reg p H. unfold main.
  destruct (Unit_Tests reg) as [[|t tests]|] eqn:Ht.
  - eexists. split; [|split; [reflexivity|intros _; reflexivity]]. discriminate.
  - destruct H as [H|[H|H]]; try discriminate.
    apply N.eqb_neq in H. rewrite H. cbn [negb].
    eexists. split; [|split; [reflexivity|]]; [discriminate|].
    intros [E|E]; discriminate.
  - eexists. split; [|split; [reflexivity|intros _; reflexivity]]. discriminate.
Qed.

(** ** The theorems at the sample programs *)

Lemma failed_test_stops_the_run_witness :
  main failing_registry initial_process
  = (Returned EXIT_FAILURE, after_failing_worker) /\
  run_tests (Unit_Test_Exclusions failing_registry)
            [case_TestToExclude; case_AnotherTestToRun] 1500 at_second_test
  = run_tests (Unit_Test_Exclusions failing_registry)
              [case_TestToExclude] 1500 at_second_test.
Proof.
  apply (failed_test_stops_the_run failing_registry
           [case_TestToRun] [case_AnotherTestToRun] case_TestToExclude
           initial_process at_second_test after_failing_worker
           1500%Z 1500%Z 2200%Z).
  - unfold loop_reaches. repeat split; reflexivity.
  - reflexivity.
  - reflexivity.
  - reflexivity.
  - reflexivity.
Defined.



Lemma main_checks_registry_first_witness :
  exists diagnostic : ostream,
    diagnostic <> [] /\
    main empty_registry initial_process
    = (Returned EXIT_FAILURE, exec (print diagnostic) initial_process) /\
    (Unit_Tests empty_registry = None \/ Unit_Tests empty_registry = Some [] ->
     diagnostic = [Str "Error: there are no registered tests"; Endl]).
Proof.
  apply (main_checks_registry_first empty_registry initial_process).
  left. reflexivity.
Defined.

(** ** The tests of the repository, run on the model *)

(** Memory.Test2: the arrays differ in their last octet. *)
Example memory_Test2_not_equal :
  fst (AssertMemoryNotEqual "test_memory.cpp" 33 16 32 4 process_Test2)
  = Ret true /\
  fst (AssertMemoryEqual "test_memory.cpp" 33 16 32 4 process_Test2)
  = Ret false /\
  compare_loop memory_Test2 16 32 4 0 = (false, 3).
Proof. repeat split; reflexivity. Qed.

(** The first three octets of the two arrays are the same. *)
Example memory_Test2_prefix_equal :
  fst (AssertMemoryEqual "test_memory.cpp" 33 16 32 3 process_Test2)
  = Ret true /\
  cout (snd (AssertMemoryNotEqual "test_memory.cpp" 33 16 32 3 process_Test2))
  = [Endl; Str "Assertion failed at "; Str "test_memory.cpp"; Str ":";
     Num 33; Endl;
     Str "  lhs: "; Str "0x"; Hex 2 1; Str " "; Hex 2 2; Str " "; Hex 2 8;
     Endl;
     Str "  rhs: "; Str "0x"; Hex 2 1; Str " "; Hex 2 2; Str " "; Hex 2 8;
     Endl].
Proof. split; reflexivity. Qed.

(** Exceptions.TestThrowUnnamed, TestExpectedException and
    TestExpectedException2, and a handler for a type that is not an
    ancestor. *)
Example exceptions_tests :
  fst (AssertException "test_exceptions.cpp" 31 test_throw_unnamed
                       initial_process) = Ret true /\
  fst (AssertException_T "CustomException" "test_exceptions.cpp" 38
                         test_throw_named "CustomException" initial_process)
  = Ret true /\
  fst (AssertException_T "std::runtime_error" "test_exceptions.cpp" 46
                         test_throw_named "std::runtime_error"
                         initial_process)
  = Ret true /\
  fst (AssertException_T "std::logic_error" "test_exceptions.cpp" 46
                         test_throw_named "std::logic_error" initial_process)
  = Ret false /\
  fst (AssertException_T "CustomException" "test_exceptions.cpp" 38
                         (throw (mkException std_runtime_error EmptyString))
                         "CustomException" initial_process)
  = Ret false.
Proof. repeat split; reflexivity. Qed.

(** Floats.SingleClose and floats.DoubleClose. *)
Example floats_close_tests :
  fst (AssertClose_float "test_floats.cpp" 150
         (literal binary32 10000001 100000) (literal binary32 10000002 100000)
         (literal binary32 1 10000) initial_process) = Ret true /\
  fst (AssertClose_double "test_floats.cpp" 158
         (literal binary64 1000000001 10000000)
         (literal binary64 1000000002 10000000)
         (literal binary64 1 100000) initial_process) = Ret true.
Proof. split; vm_compute; reflexivity. Qed.

(** The whole of test_miscellaneous.cpp: the two excluded tests would fail,
    and the run succeeds. *)
Example miscellaneous_run :
  fst (main miscellaneous_registry initial_process) = Returned EXIT_SUCCESS /\
  Test_Failed (snd (main miscellaneous_registry initial_process)) = false /\
  cout (snd (main miscellaneous_registry initial_process)) =
  [Str "Total numbers of tests: "; Num 4; Endl;
   Str "Running test "; Str "Miscellaneous::TestToRun"; Flush;
   Str " ("; Dbl (1500 # 1000); Str " us"; Str ")"; Endl;
   Str "Excluding test "; Str "Miscellaneous::TestToExclude"; Endl;
   Str "Running test "; Str "Miscellaneous::AnotherTestToRun"; Flush;
   Str " ("; Dbl (2000 # 1000); Str " ms"; Str ")"; Endl;
   Str "Excluding test "; Str "Miscellaneous::SecondTestToExclude"; Endl;
   Str "All test(s) passed successfully ("; Dbl (2001 # 1000); Str " ms";
   Str " total)"; Endl].
Proof. repeat split; reflexivity. Qed.

(** Exclusion compares the strings as they are: another spelling of an
    excluded name is not excluded. *)
Example exclusion_is_case_sensitive :
  exclude_test (Unit_Test_Exclusions miscellaneous_registry)
               "Miscellaneous::TestToExclude" = true /\
  exclude_test (Unit_Test_Exclusions miscellaneous_registry)
               "miscellaneous::testtoexclude" = false.
Proof. split; reflexivity. Qed.

(** Registration when the allocator refuses, then accepts. *)
Example registration_failure_then_success :
  RegisterTest (mkAllocator true false) "Group::First" TestToRun
               Default_Timeout empty_registry
  = (0, mkRegistry (Some []) None 1) /\
  fst (RegisterTest (mkAllocator true true) "Group::First" TestToRun
                    Default_Timeout (mkRegistry (Some []) None 1)) = 1 /\
  fst (main (snd (RegisterTest (mkAllocator true true) "Group::First"
                               TestToRun Default_Timeout
                               (mkRegistry (Some []) None 1)))
            initial_process) = Returned EXIT_FAILURE.
Proof. repeat split; reflexivity. Qed.

(** Durations at the boundaries between units. *)
Example FriendlyDuration_boundaries :
  FriendlyDuration 999 = [Dbl (999 # 1000); Str " us"] /\
  FriendlyDuration 999999 = [Dbl (999999 # 1000); Str " us"] /\
  FriendlyDuration 1000000 = [Dbl (1000 # 1000); Str " ms"] /\
  FriendlyDuration 999999999 = [Dbl (999999 # 1000); Str " ms"] /\
  FriendlyDuration 1000000000 = [Dbl (1000 # 1000); Str " s"] /\
  FriendlyDuration 1234567890 = [Dbl (1234 # 1000); Str " s"].
Proof. repeat split; reflexivity. Qed.

(** * Further properties *)

(** ** The registry: ExcludeTest, identifiers, order of the calls *)

(** When the storage can be allocated [ExcludeTest] returns true, adds the
    name at the end of the exclusions and changes nothing else; when an
    allocation fails it returns false, adds one to [failed_registrations]
    and excludes nothing.  It never touches the registered tests. *)
Theorem ExcludeTest_appends_or_counts_failure :
  forall (heap : Allocator) (name : string) (r : Registry),
    (exclusions_allocated heap r = true ->
       fst (ExcludeTest heap name r) = true /\
       Unit_Test_Exclusions (snd (ExcludeTest heap name r)) =
         Some (excluded_names r ++ [name]) /\
       failed_registrations (snd (ExcludeTest heap name r)) =
         failed_registrations r) /\
    (exclusions_allocated heap r = false ->
       fst (ExcludeTest heap name r) = false /\
       excluded_names (snd (ExcludeTest heap name r)) = excluded_names r /\
       failed_registrations (snd (ExcludeTest heap name r)) =
         (failed_registrations r + 1) mod UINT_MODULUS) /\
    Unit_Tests (snd (ExcludeTest heap name r)) = Unit_Tests r.
Proof.
  intros [mk em] name [tests excl failed].
  unfold exclusions_allocated, ExcludeTest, ExcludeTest_try, excluded_names,
    increment_failed.
  cbn [Unit_Tests Unit_Test_Exclusions failed_registrations
       make_unique_ok emplace_back_ok].
  destruct excl as [names|]; destruct mk; destruct em;
    cbn [andb fst snd Unit_Tests Unit_Test_Exclusions failed_registrations app];
    (split; [|split]); try reflexivity; intros H; try discriminate;
    repeat split; reflexivity.
Qed.

(** A call of [RegisterTest] that gets its storage. *)
Lemma RegisterTest_granted heap name test timeout_s r :
  storage_allocated heap r = true ->
  RegisterTest heap name test timeout_s r =
  (N.of_nat (List.length (registered_tests r)) + 1,
   mkRegistry (Some (registered_tests r ++ [mkTest name test timeout_s]))
              (Unit_Test_Exclusions r) (failed_registrations r)).
Proof.
  destruct heap as [mk em], r as [tests excl failed].
  unfold storage_allocated, RegisterTest, RegisterTest_try, registered_tests.
  cbn [Unit_Tests Unit_Test_Exclusions failed_registrations
       make_unique_ok emplace_back_ok].
  intros H.
  destruct tests as [tests|]; [|destruct mk; [|discriminate]];
    (destruct em; [|rewrite andb_false_r in H; discriminate]);
    cbn [Unit_Tests]; rewrite length_app; cbn [List.length app];
    f_equal; lia.
Qed.

(** A call of [RegisterTest] that is refused. *)
Lemma RegisterTest_refused heap name test timeout_s r :
  storage_allocated heap r = false ->
  fst (RegisterTest heap name test timeout_s r) = 0 /\
  registered_tests (snd (RegisterTest heap name test timeout_s r))
  = registered_tests r /\
  Unit_Test_Exclusions (snd (RegisterTest heap name test timeout_s r))
  = Unit_Test_Exclusions r /\
  failed_registrations (snd (RegisterTest heap name test timeout_s r))
  = (failed_registrations r + 1) mod UINT_MODULUS.
Proof.
  destruct heap as [mk em], r as [tests excl failed].
  unfold storage_allocated, RegisterTest, RegisterTest_try, registered_tests,
    increment_failed.
  cbn [Unit_Tests Unit_Test_Exclusions failed_registrations
       make_unique_ok emplace_back_ok].
  destruct tests as [tests|]; [|destruct mk]; destruct em;
    cbn [andb]; intros H; try discriminate; repeat split; reflexivity.
Qed.

(** A call of [ExcludeTest] that gets its storage, and one that is
    refused. *)
Lemma ExcludeTest_granted heap name r :
  exclusions_allocated heap r = true ->
  ExcludeTest heap name r =
  (true, mkRegistry (Unit_Tests r) (Some (excluded_names r ++ [name]))
                    (failed_registrations r)).
Proof.
  destruct heap as [mk em], r as [tests excl failed].
  unfold exclusions_allocated, ExcludeTest, ExcludeTest_try, excluded_names.
  cbn [Unit_Tests Unit_Test_Exclusions failed_registrations
       make_unique_ok emplace_back_ok].
  destruct excl as [names|]; [|destruct mk]; destruct em;
    cbn [andb]; intros H; try discriminate; reflexivity.
Qed.

Lemma ExcludeTest_refused heap name r :
  exclusions_allocated heap r = false ->
  fst (ExcludeTest heap name r) = false /\
  Unit_Tests (snd (ExcludeTest heap name r)) = Unit_Tests r /\
  excluded_names (snd (ExcludeTest heap name r)) = excluded_names r /\
  failed_registrations (snd (ExcludeTest heap name r))
  = (failed_registrations r + 1) mod UINT_MODULUS.
Proof.
  destruct heap as [mk em], r as [tests excl failed].
  unfold exclusions_allocated, ExcludeTest, ExcludeTest_try, excluded_names,
    increment_failed.
  cbn [Unit_Tests Unit_Test_Exclusions failed_registrations
       make_unique_ok emplace_back_ok].
  destruct excl as [names|]; [|destruct mk]; destruct em;
    cbn [andb]; intros H; try discriminate; repeat split; reflexivity.
Qed.

(** The identifier returned by a successful [RegisterTest] is the position,
    counted from 1, at which the test can be read back, and the tests
    registered before keep their positions. *)
Theorem RegisterTest_identifier_reads_back :
  forall (heap : Allocator) (name : string) (test : Callable) (timeout_s : N)
         (r : Registry),
    storage_allocated heap r = true ->
    nth_error (registered_tests (snd (RegisterTest heap name test timeout_s r)))
              (N.to_nat (fst (RegisterTest heap name test timeout_s r)) - 1)
    = Some (mkTest name test timeout_s) /\
    forall i, (i < List.length (registered_tests r))%nat ->
      nth_error (registered_tests (snd (RegisterTest heap name test timeout_s r)))
                i
      = nth_error (registered_tests r) i.
Proof.
  intros heap name test timeout_s r H.
  rewrite (RegisterTest_granted heap name test timeout_s r H).
  cbn [fst snd].
  change (registered_tests
            (mkRegistry (Some (registered_tests r ++ [mkTest name test timeout_s]))
                        (Unit_Test_Exclusions r) (failed_registrations r)))
    with (registered_tests r ++ [mkTest name test timeout_s]).
  split.
  - replace (N.to_nat (N.of_nat (List.length (registered_tests r)) + 1) - 1)%nat
      with (List.length (registered_tests r)) by lia.
    rewrite nth_error_app2 by lia.
    rewrite Nat.sub_diag. reflexivity.
  - intros i Hi. apply nth_error_app1. exact Hi.
Qed.

Lemma RegisterTest_identifier_reads_back_witness :
  nth_error (registered_tests
               (snd (RegisterTest (mkAllocator true true)
                       "Miscellaneous::AnotherTestToRun" AnotherTestToRun
                       Default_Timeout
                       (register "Miscellaneous::TestToRun" TestToRun
                                 empty_registry))))
            (N.to_nat (fst (RegisterTest (mkAllocator true true)
                              "Miscellaneous::AnotherTestToRun"
                              AnotherTestToRun Default_Timeout
                              (register "Miscellaneous::TestToRun" TestToRun
                                        empty_registry))) - 1)
  = Some case_AnotherTestToRun.
Proof.
  apply (RegisterTest_identifier_reads_back (mkAllocator true true)
           "Miscellaneous::AnotherTestToRun" AnotherTestToRun Default_Timeout
           (register "Miscellaneous::TestToRun" TestToRun empty_registry)).
  reflexivity.
Defined.

Lemma exclusion_loop_app (l : list string) (x name : string) :
  exclusion_loop (l ++ [x]) name = (exclusion_loop l name || String.eqb x name)%bool.
Proof.
  induction l as [|y l IH]; cbn [app exclusion_loop].
  - destruct (String.eqb x name); reflexivity.
  - destruct (String.eqb y name); [reflexivity | exact IH].
Qed.

(** What the loop of [main] finds after one [ExcludeTest]: when the call
    succeeds, the names excluded are those excluded before and the new name,
    and no other; when it fails, those excluded before. *)
Theorem ExcludeTest_then_lookup :
  forall (heap : Allocator) (name other : string) (r : Registry),
    exclude_test (Unit_Test_Exclusions (snd (ExcludeTest heap name r))) other
    = (exclude_test (Unit_Test_Exclusions r) other ||
       (fst (ExcludeTest heap name r) && String.eqb name other))%bool.
Proof.
  intros [mk em] name other [tests excl failed].
  unfold ExcludeTest, ExcludeTest_try, increment_failed.
  cbn [Unit_Tests Unit_Test_Exclusions failed_registrations
       make_unique_ok emplace_back_ok].
  destruct excl as [names|]; [|destruct mk]; destruct em;
    cbn [fst snd Unit_Test_Exclusions exclude_test andb];
    rewrite ?exclusion_loop_app, ?orb_false_r; reflexivity.
Qed.

(** A registration and an exclusion give the same registry and the same
    results in either order, whatever the allocator answers to each. *)
Theorem RegisterTest_ExcludeTest_commute :
  forall (h1 h2 : Allocator) (name : string) (test : Callable) (timeout_s : N)
         (excluded : string) (r : Registry),
    snd (ExcludeTest h2 excluded (snd (RegisterTest h1 name test timeout_s r)))
    = snd (RegisterTest h1 name test timeout_s (snd (ExcludeTest h2 excluded r))) /\
    fst (ExcludeTest h2 excluded (snd (RegisterTest h1 name test timeout_s r)))
    = fst (ExcludeTest h2 excluded r) /\
    fst (RegisterTest h1 name test timeout_s (snd (ExcludeTest h2 excluded r)))
    = fst (RegisterTest h1 name test timeout_s r).
Proof.
  intros [mk1 em1] [mk2 em2] name test timeout_s excluded [tests excl failed].
  unfold ExcludeTest, ExcludeTest_try, RegisterTest, RegisterTest_try,
    increment_failed.
  cbn [Unit_Tests Unit_Test_Exclusions failed_registrations
       make_unique_ok emplace_back_ok].
  destruct tests as [tests|]; destruct excl as [names|];
    destruct mk1; destruct mk2; destruct em1; destruct em2;
    cbn [fst snd Unit_Tests Unit_Test_Exclusions failed_registrations];
    repeat split; reflexivity.
Qed.

(** ** Static initialisation: the macros, then main *)

Lemma declare_counter heap d r :
  failed_registrations (declare heap d r) =
  if refused heap d r
  then (failed_registrations r + 1) mod UINT_MODULUS
  else failed_registrations r.
Proof.
  destruct d as [g t body | g t body s | g t]; cbn [declare refused].
  - destruct (storage_allocated heap r) eqn:E; cbn [negb].
    + rewrite (RegisterTest_granted _ _ _ _ _ E). reflexivity.
    + apply (RegisterTest_refused _ _ _ _ _ E).
  - destruct (storage_allocated heap r) eqn:E; cbn [negb].
    + rewrite (RegisterTest_granted _ _ _ _ _ E). reflexivity.
    + apply (RegisterTest_refused _ _ _ _ _ E).
  - destruct (exclusions_allocated heap r) eqn:E; cbn [negb].
    + rewrite (ExcludeTest_granted _ _ _ E). reflexivity.
    + apply (ExcludeTest_refused _ _ _ E).
Qed.

Lemma counter_add_mod (f a b : N) :
  ((f + a) mod UINT_MODULUS + b) mod UINT_MODULUS
  = (f + (a + b)) mod UINT_MODULUS.
Proof.
  rewrite N.Div0.add_mod_idemp_l. f_equal. lia.
Qed.

Lemma counter_after_static_initialization decls : forall r,
  failed_registrations r < UINT_MODULUS ->
  failed_registrations (static_initialization decls r)
  = (failed_registrations r + N.of_nat (refusals decls r)) mod UINT_MODULUS.
Proof.
  assert (Hm : UINT_MODULUS <> 0) by (unfold UINT_MODULUS; discriminate).
  induction decls as [|[heap d] decls IH]; intros r Hr;
    cbn [static_initialization refusals].
  - rewrite N.add_0_r. symmetry. apply N.mod_small. exact Hr.
  - assert (Hd : failed_registrations (declare heap d r) < UINT_MODULUS).
    { rewrite declare_counter. destruct (refused heap d r); [|exact Hr].
      apply N.mod_lt. exact Hm. }
    rewrite (IH _ Hd), declare_counter.
    destruct (refused heap d r).
    + rewrite counter_add_mod. f_equal. lia.
    + f_equal.
Qed.

(** After the statics are initialised [failed_registrations] is the number
    of refused calls added to its former value, as an [unsigned]. *)
Theorem failed_registrations_counts_refusals :
  forall (decls : list (Allocator * Declaration)) (r : Registry),
    failed_registrations r < UINT_MODULUS ->
    failed_registrations (static_initialization decls r)
    = (failed_registrations r + N.of_nat (refusals decls r)) mod UINT_MODULUS.
Proof.
  intros decls r Hr. apply counter_after_static_initialization. exact Hr.
Qed.

Lemma failed_registrations_counts_refusals_witness :
  failed_registrations
    (static_initialization miscellaneous_with_refusal empty_registry)
  = (failed_registrations empty_registry +
     N.of_nat (refusals miscellaneous_with_refusal empty_registry))
    mod UINT_MODULUS.
Proof.
  apply (failed_registrations_counts_refusals miscellaneous_with_refusal
           empty_registry).
  reflexivity.
Defined.

Lemma refusals_bound decls : forall r,
  (refusals decls r <= List.length decls)%nat.
Proof.
  induction decls as [|[heap d] decls IH]; intros r;
    cbn [refusals List.length]; [lia|].
  specialize (IH (declare heap d r)).
  destruct (refused heap d r); lia.
Qed.

(** [main] on a registry whose counter is not zero. *)
Lemma main_refuses reg p :
  failed_registrations reg <> 0 ->
  exists diagnostic,
    diagnostic <> [] /\
    main reg p = (Returned EXIT_FAILURE, exec (print diagnostic) p).
Proof.
  intros H. unfold main.
  destruct (Unit_Tests reg) as [[|t tests]|];
    try (eexists; split; [|reflexivity]; discriminate).
  apply N.eqb_neq in H. rewrite H. eexists. split; [|reflexivity].
  discriminate.
Qed.

(** If the allocator refuses any call made by the macros of a program (of
    fewer than [2^32] macros), [main] returns [EXIT_FAILURE] after printing
    one diagnostic, which is not empty, and nothing else happens: no test
    is run. *)
Theorem refused_registration_fails_the_run :
  forall (decls : list (Allocator * Declaration)) (p : Process),
    N.of_nat (List.length decls) < UINT_MODULUS ->
    (0 < refusals decls empty_registry)%nat ->
    exists diagnostic : ostream,
      diagnostic <> [] /\
      main (static_initialization decls empty_registry) p
      = (Returned EXIT_FAILURE, exec (print diagnostic) p).
Proof.
  intros decls p Hlen Hpos. apply main_refuses.
  pose proof (refusals_bound decls empty_registry) as Hb.
  rewrite counter_after_static_initialization by reflexivity.
  cbn [failed_registrations empty_registry]. rewrite N.add_0_l.
  rewrite N.mod_small by lia. lia.
Qed.

Lemma refused_registration_fails_the_run_witness :
  exists diagnostic : ostream,
    diagnostic <> [] /\
    main (static_initialization miscellaneous_with_refusal empty_registry)
         initial_process
    = (Returned EXIT_FAILURE, exec (print diagnostic) initial_process).
Proof.
  apply (refused_registration_fails_the_run miscellaneous_with_refusal
           initial_process).
  - reflexivity.
  - cbv. apply le_n.
Defined.

Lemma exclude_test_names r name :
  exclude_test (Unit_Test_Exclusions r) name
  = exclusion_loop (excluded_names r) name.
Proof.
  unfold excluded_names. destruct (Unit_Test_Exclusions r); reflexivity.
Qed.

Lemma declare_granted d r :
  registered_tests (declare generous d r)
  = registered_tests r ++ declared_tests [d] /\
  excluded_names (declare generous d r)
  = excluded_names r ++ declared_exclusions [d] /\
  failed_registrations (declare generous d r) = failed_registrations r.
Proof.
  assert (Hs : storage_allocated generous r = true).
  { unfold storage_allocated, generous. cbn.
    destruct (Unit_Tests r); reflexivity. }
  assert (He : exclusions_allocated generous r = true).
  { unfold exclusions_allocated, generous. cbn.
    destruct (Unit_Test_Exclusions r); reflexivity. }
  destruct d as [g t body | g t body s | g t];
    cbn [declare declared_tests declared_exclusions].
  - rewrite (RegisterTest_granted _ _ _ _ _ Hs). cbn [snd].
    unfold registered_tests at 1, excluded_names.
    cbn [Unit_Tests Unit_Test_Exclusions failed_registrations].
    rewrite app_nil_r. repeat split; reflexivity.
  - rewrite (RegisterTest_granted _ _ _ _ _ Hs). cbn [snd].
    unfold registered_tests at 1, excluded_names.
    cbn [Unit_Tests Unit_Test_Exclusions failed_registrations].
    rewrite app_nil_r. repeat split; reflexivity.
  - rewrite (ExcludeTest_granted _ _ _ He). cbn [snd].
    unfold registered_tests, excluded_names at 1.
    cbn [Unit_Tests Unit_Test_Exclusions failed_registrations].
    rewrite app_nil_r. repeat split; reflexivity.
Qed.

Lemma declared_tests_cons d decls :
  declared_tests (d :: decls) = declared_tests [d] ++ declared_tests decls.
Proof. destruct d; reflexivity. Qed.

Lemma declared_exclusions_cons d decls :
  declared_exclusions (d :: decls)
  = declared_exclusions [d] ++ declared_exclusions decls.
Proof. destruct d; reflexivity. Qed.

(** When the allocator grants every call, initialising the statics adds the
    declared tests to the registry in the order of their macros, each under
    the name [group::test] and with its timeout (the default one for
    [STF_TEST]); it adds the declared exclusions likewise and leaves
    [failed_registrations] as it was.  Every test named by an
    [STF_TEST_EXCLUDE] is then one that the loop of [main] excludes. *)
Theorem static_initialization_keeps_declaration_order :
  forall (decls : list Declaration) (r : Registry),
    registered_tests (static_initialization (map (pair generous) decls) r)
    = registered_tests r ++ declared_tests decls /\
    excluded_names (static_initialization (map (pair generous) decls) r)
    = excluded_names r ++ declared_exclusions decls /\
    failed_registrations (static_initialization (map (pair generous) decls) r)
    = failed_registrations r /\
    (forall group test,
        In (STF_TEST_EXCLUDE group test) decls ->
        exclude_test
          (Unit_Test_Exclusions
             (static_initialization (map (pair generous) decls) r))
          (qualified_name group test) = true).
Proof.
  intros decls r.
  assert (H : registered_tests (static_initialization (map (pair generous) decls) r)
              = registered_tests r ++ declared_tests decls /\
              excluded_names (static_initialization (map (pair generous) decls) r)
              = excluded_names r ++ declared_exclusions decls /\
              failed_registrations
                (static_initialization (map (pair generous) decls) r)
              = failed_registrations r).
  { revert r. induction decls as [|d decls IH]; intros r;
      cbn [map static_initialization].
    - cbn [declared_tests declared_exclusions]. rewrite !app_nil_r.
      repeat split; reflexivity.
    - destruct (IH (declare generous d r)) as [Ht [He Hf]].
      destruct (declare_granted d r) as [Ht' [He' Hf']].
      rewrite Ht, He, Hf, Ht', He', Hf'.
      rewrite (declared_tests_cons d decls),
        (declared_exclusions_cons d decls), <- !app_assoc.
      repeat split; reflexivity. }
  destruct H as [Ht [He Hf]].
  split; [exact Ht|]. split; [exact He|]. split; [exact Hf|].
  intros group test Hin.
  rewrite exclude_test_names, He. apply exclusion_loop_In.
  apply in_or_app. right.
  clear - Hin. induction decls as [|d decls IH]; [contradiction|].
  destruct Hin as [-> | Hin].
  - left. reflexivity.
  - rewrite declared_exclusions_cons. apply in_or_app. right.
    apply IH. exact Hin.
Qed.

(** The registry of test_miscellaneous.cpp is what its macros build. *)
Example miscellaneous_static_initialization :
  static_initialization (map (pair generous) miscellaneous_declarations)
                        empty_registry
  = miscellaneous_registry.
Proof. reflexivity. Qed.

(** ** The runner: exit statuses, the flag, the clock *)

Lemma print_app a b p :
  exec (print (a ++ b)) p = exec (print b) (exec (print a) p).
Proof. unfold exec, print. cbn. rewrite app_assoc. reflexivity. Qed.

Lemma print_nil p : exec (print []) p = p.
Proof. destruct p. unfold exec, print. cbn. rewrite app_nil_r. reflexivity. Qed.

(** The worker, by what the test body does. *)
Lemma worker_cases test p :
  worker test p =
  match test p with
  | (Ret _, p') => (Ret (steady_clock p, steady_clock p'), p')
  | (Raise e, p') =>
      (Ret (steady_clock p, steady_clock p'),
       exec (print (unexpected_exception_report e) ;; set_Test_Failed true) p')
  | (Hang, p') => (Hang, p')
  end.
Proof.
  unfold worker, now, try_block, bind, unexpected_exception_report. cbn.
  destruct (test p) as [[[]|e|] p']; [reflexivity| |reflexivity].
  destruct (handler_matches "std::exception" (dynamic_type e)); reflexivity.
Qed.

Section RunnerInvariants.

Variable exclusions : option (list string).

(** When the loop visits every test, [Test_Failed] is clear at the end if
    it was clear at the start. *)
Lemma run_tests_completed (tests : list TestCase) :
  forall total p total' p',
    run_tests exclusions tests total p = (Completed total', p') ->
    Test_Failed p = false -> Test_Failed p' = false.
Proof.
  induction tests as [|t tests IH]; intros total p total' p' H;
    cbn [run_tests] in H.
  - inversion H; subst. tauto.
  - destruct (exclude_test exclusions (test_name t)).
    + intros Hp. eapply IH; [exact H|]. exact Hp.
    + destruct (worker (test_body t) _) as [r p2] eqn:Hw.
      destruct (wait_for _ _ r p2); [|discriminate].
      destruct r as [[s e]| |]; [|discriminate|discriminate].
      destruct (Test_Failed p2) eqn:Hf; [discriminate|].
      intros _. eapply IH; [exact H|]. exact Hf.
Qed.

(** When the process ends inside the loop, it ends by [return EXIT_FAILURE]
    or by [std::exit(EXIT_FAILURE)], the latter right after the timeout
    diagnostic of one of the tests. *)
Lemma run_tests_stopped (tests : list TestCase) :
  forall total p e p',
    run_tests exclusions tests total p = (Stopped e, p') ->
    e = Returned EXIT_FAILURE \/
    (e = Exited EXIT_FAILURE /\
     exists t p2, In t tests /\
       p' = exec (print (timeout_message (test_name t) (test_timeout t))) p2).
Proof.
  induction tests as [|t tests IH]; intros total p e p' H;
    cbn [run_tests] in H; [discriminate|].
  destruct (exclude_test exclusions (test_name t)).
  - apply IH in H. destruct H as [H | [H [t' [p2 [Hin Hp]]]]];
      [left; exact H | right].
    split; [exact H|]. exists t', p2. split; [right; exact Hin | exact Hp].
  - destruct (worker (test_body t) _) as [r p2] eqn:Hw.
    destruct (wait_for _ _ r p2) eqn:Hwait.
    + destruct r as [[s e']| ex|].
      * destruct (Test_Failed p2).
        -- inversion H; subst. left. reflexivity.
        -- apply IH in H. destruct H as [H | [H [t' [p3 [Hin Hp]]]]];
             [left; exact H | right].
           split; [exact H|]. exists t', p3.
           split; [right; exact Hin | exact Hp].
      * exfalso. apply (worker_never_throws (test_body t)
                          (exec (print (running_line (test_name t))) p) ex).
        rewrite Hw. reflexivity.
      * discriminate.
    + inversion H; subst. right. split; [reflexivity|].
      exists t. eexists. split; [left; reflexivity | reflexivity].
Qed.

(** The loop over tests that are all excluded prints their notices and
    nothing else happens. *)
Lemma run_tests_all_excluded (tests : list TestCase) :
  forall total p,
    Forall (fun t => exclude_test exclusions (test_name t) = true) tests ->
    run_tests exclusions tests total p
    = (Completed total, exec (print (exclusion_notices tests)) p).
Proof.
  induction tests as [|t tests IH]; intros total p Hall;
    cbn [run_tests exclusion_notices flat_map].
  - rewrite print_nil. reflexivity.
  - inversion Hall as [|? ? Ht Hrest]; subst. rewrite Ht.
    rewrite (IH _ _ Hrest).
    change (Str "Excluding test " :: Str (test_name t) :: Endl ::
            flat_map (fun t0 => [Str "Excluding test "; Str (test_name t0); Endl])
                     tests)
      with ([Str "Excluding test "; Str (test_name t); Endl] ++
            exclusion_notices tests).
    rewrite print_app. reflexivity.
Qed.

End RunnerInvariants.

(** [main] ends in one of three ways: [return EXIT_SUCCESS],
    [return EXIT_FAILURE], or [std::exit(EXIT_FAILURE)]; never by
    [std::terminate].  It calls [std::exit] only right after printing the
    timeout diagnostic of a registered test. *)
Theorem main_exit_statuses :
  forall (reg : Registry) (p : Process),
    (fst (main reg p) = Returned EXIT_SUCCESS \/
     fst (main reg p) = Returned EXIT_FAILURE \/
     fst (main reg p) = Exited EXIT_FAILURE) /\
    (forall status, fst (main reg p) = Exited status ->
       exists t p2,
         In t (registered_tests reg) /\
         snd (main reg p)
         = exec (print (timeout_message (test_name t) (test_timeout t))) p2).
Proof.
  intros reg p. unfold main, registered_tests.
  destruct (Unit_Tests reg) as [[|t tests]|].
  - split; [right; left; reflexivity | discriminate].
  - destruct (negb (failed_registrations reg =? 0)).
    + split; [right; left; reflexivity | discriminate].
    + destruct (run_tests (Unit_Test_Exclusions reg) (t :: tests) 0 _)
        as [[total|e] p'] eqn:Hrun; cbn [fst snd].
      * split; [left; reflexivity | discriminate].
      * apply run_tests_stopped in Hrun.
        destruct Hrun as [-> | [-> Hex]].
        -- split; [right; left; reflexivity | discriminate].
        -- split; [right; right; reflexivity | intros _ _; exact Hex].
  - split; [right; left; reflexivity | discriminate].
Qed.

(** A run that starts with [Test_Failed] clear and returns [EXIT_SUCCESS]
    ends with [Test_Failed] clear. *)
Theorem successful_run_leaves_flag_clear :
  forall (reg : Registry) (p : Process),
    Test_Failed p = false ->
    fst (main reg p) = Returned EXIT_SUCCESS ->
    Test_Failed (snd (main reg p)) = false.
Proof.
  intros reg p Hp. unfold main.
  destruct (Unit_Tests reg) as [[|t tests]|]; try discriminate.
  destruct (negb (failed_registrations reg =? 0)); [discriminate|].
  destruct (run_tests (Unit_Test_Exclusions reg) (t :: tests) 0 _)
    as [[total|e] p'] eqn:Hrun; cbn [fst snd].
  - intros _. apply run_tests_completed in Hrun.
    + cbn [exec print snd Test_Failed]. exact Hrun.
    + exact Hp.
  - intros He. apply run_tests_stopped in Hrun.
    destruct Hrun as [H | [H _]]; rewrite H in He; discriminate.
Qed.

Lemma successful_run_leaves_flag_clear_witness :
  Test_Failed (snd (main miscellaneous_registry initial_process)) = false.
Proof.
  apply (successful_run_leaves_flag_clear miscellaneous_registry
           initial_process); reflexivity.
Defined.

(** When every registered test is excluded, [main] returns [EXIT_SUCCESS]
    having only assigned the message strings and printed the number of
    tests, one notice for each test and a summary of zero duration: no body
    runs. *)
Theorem run_of_excluded_tests_succeeds :
  forall (reg : Registry) (tests : list TestCase) (p : Process),
    Unit_Tests reg = Some tests -> tests <> [] ->
    failed_registrations reg = 0 ->
    Forall (fun t => exclude_test (Unit_Test_Exclusions reg) (test_name t)
                     = true) tests ->
    main reg p =
    (Returned EXIT_SUCCESS,
     exec (print (summary_line 0))
          (exec (print (exclusion_notices tests))
                (exec (before_loop tests) p))).
Proof.
  intros reg tests p Ht Hne Hf Hall.
  rewrite (main_runs_loop reg tests p Ht Hne Hf).
  rewrite (run_tests_all_excluded _ tests 0 _ Hall). reflexivity.
Qed.

Lemma run_of_excluded_tests_succeeds_witness :
  main all_excluded_registry initial_process =
  (Returned EXIT_SUCCESS,
   exec (print (summary_line 0))
        (exec (print (exclusion_notices
                        [case_TestToExclude;
                         mkTest "Miscellaneous::SecondTestToExclude"
                                SecondTestToExclude Default_Timeout]))
              (exec (before_loop
                       [case_TestToExclude;
                        mkTest "Miscellaneous::SecondTestToExclude"
                               SecondTestToExclude Default_Timeout])
                    initial_process))).
Proof.
  apply (run_of_excluded_tests_succeeds all_excluded_registry
           [case_TestToExclude;
            mkTest "Miscellaneous::SecondTestToExclude"
                   SecondTestToExclude Default_Timeout]
           initial_process).
  - reflexivity.
  - discriminate.
  - reflexivity.
  - repeat constructor.
Defined.

(** An exception that leaves a test body is caught in the worker: the
    worker prints "Unexpected exception thrown", followed by the text of
    [what()] when the handler for [std::exception] accepts the exception
    (its type is [std::exception] or has it as an unambiguous public base),
    sets
    [Test_Failed], and, the worker having signalled in time, [main] returns
    [EXIT_FAILURE] there without running the tests that follow. *)
Theorem unexpected_exception_fails_the_run :
  forall (reg : Registry) (pre post : list TestCase) (t : TestCase)
         (p_init p p' : Process) (total : Z) (e : Exception),
    loop_reaches reg pre (t :: post) p_init total p ->
    exclude_test (Unit_Test_Exclusions reg) (test_name t) = false ->
    test_body t (exec (print (running_line (test_name t))) p) = (Raise e, p') ->
    (steady_clock p' - steady_clock p
     < Z.of_N (test_timeout t) * 1000000000)%Z ->
    main reg p_init =
    (Returned EXIT_FAILURE,
     exec (print (unexpected_exception_report e) ;; set_Test_Failed true) p').
Proof.
  intros reg pre post t p_init p p' total e Hreach Hx Hbody Ht.
  rewrite (main_from reg pre (t :: post) p_init total p);
    [|discriminate|exact Hreach].
  assert (Hw : worker (test_body t) (exec (print (running_line (test_name t))) p)
               = (Ret (steady_clock p, steady_clock p'),
                  exec (print (unexpected_exception_report e) ;;
                        set_Test_Failed true) p')).
  { rewrite worker_cases, Hbody. reflexivity. }
  rewrite (run_tests_failed _ t post total p _ _ _ Hx Hw); [reflexivity| |].
  - unfold unexpected_exception_report.
    destruct (handler_matches "std::exception" (dynamic_type e)); exact Ht.
  - unfold unexpected_exception_report.
    destruct (handler_matches "std::exception" (dynamic_type e)); reflexivity.
Qed.

Lemma unexpected_exception_fails_the_run_witness :
  main throwing_registry initial_process =
  (Returned EXIT_FAILURE,
   exec (print (unexpected_exception_report
                  (mkException CustomException "broken")) ;;
         set_Test_Failed true)
        (snd (test_body case_Throwing
                (exec (print (running_line "Miscellaneous::Throwing"))
                      at_second_test)))).
Proof.
  apply (unexpected_exception_fails_the_run throwing_registry
           [case_TestToRun] [case_AnotherTestToRun] case_Throwing
           initial_process at_second_test _ 1500%Z
           (mkException CustomException "broken")).
  - unfold loop_reaches. repeat split; reflexivity.
  - reflexivity.
  - reflexivity.
  - reflexivity.
Defined.



(** ** Hex dumps: GetMemoryHex and the adapters *)

Lemma hex_elements_loop_later sizeof_T elements : forall i,
  0 < i ->
  hex_elements_loop sizeof_T elements i
  = flat_map (fun x => [Str " "; Hex (sizeof_T * 2) x])
             (map (hex_operand sizeof_T) elements).
Proof.
  induction elements as [|x rest IH]; intros i Hi;
    cbn [hex_elements_loop flat_map map]; [reflexivity|].
  apply N.ltb_lt in Hi. rewrite Hi. cbn [app].
  rewrite IH by lia. reflexivity.
Qed.

Lemma space_separated_cons width x rest :
  space_separated width (x :: rest)
  = Hex width x :: flat_map (fun y => [Str " "; Hex width y]) rest.
Proof.
  revert x. induction rest as [|y rest IH]; intros x; [reflexivity|].
  cbn [space_separated flat_map app] in *. rewrite IH. reflexivity.
Qed.

Lemma hex_elements_loop_first sizeof_T elements :
  hex_elements_loop sizeof_T elements 0
  = space_separated (sizeof_T * 2) (map (hex_operand sizeof_T) elements).
Proof.
  destruct elements as [|x rest]; [reflexivity|].
  cbn [map]. rewrite space_separated_cons. cbn [hex_elements_loop].
  cbn [N.ltb N.compare app]. rewrite hex_elements_loop_later by lia.
  reflexivity.
Qed.

(** A value that [int] holds without a sign prints as itself. *)
Lemma hex_operand_unsigned sizeof_T x :
  (0 <= x < 2 ^ 32)%Z -> hex_operand sizeof_T x = Z.to_N x.
Proof.
  intros Hx. unfold hex_operand, INT_BITS. f_equal. apply Z.mod_small.
  split; [lia|]. eapply Z.lt_le_trans; [apply Hx|].
  apply Z.pow_le_mono_r; lia.
Qed.

Lemma hex_operand_octet b : hex_operand 1 (Z.of_N (Byte.to_N b)) = Byte.to_N b.
Proof.
  pose proof (Byte.to_N_bounded b) as Hb.
  rewrite hex_operand_unsigned by lia. apply N2Z.id.
Qed.

Lemma GetMemoryHex_loop_elements mem base count : forall i,
  GetMemoryHex_loop mem base count i
  = hex_elements_loop 1
      (map (fun k => Z.of_N (Byte.to_N (mem (base + (i + N.of_nat k)))))
           (seq 0 count))
      i.
Proof.
  induction count as [|count IH]; intros i; [reflexivity|].
  cbn [GetMemoryHex_loop seq map hex_elements_loop].
  rewrite N.add_0_r, hex_operand_octet. f_equal. f_equal.
  rewrite IH, <- seq_shift, map_map. f_equal.
  apply map_ext. intros k. do 4 f_equal. lia.
Qed.

(** [GetMemoryHex] prints the octets of the range in order, each as a hex
    number of width 2, with one space between neighbours and none before
    the first or after the last (nothing at all for length 0).  The two
    adapters print "0x" and then their elements in the same way, in a width
    of two digits for each octet of the element type; the number shown for
    an element is the element itself when it is not negative, and for a
    negative element of a type not wider than [int] its two's complement
    in 32 bits, which takes eight digits whatever the width.  So the dump
    that a failing memory assertion prints after "0x" is what the vector
    adapter prints for the same octets. *)
Theorem hex_dumps_are_space_separated :
  forall (mem : Memory) (base n : N) (sizeof_T : nat) (elements : list Z),
    GetMemoryHex mem base n = space_separated 2 (octets mem base n) /\
    insert_integral_vector sizeof_T elements
    = Str "0x" ::
      space_separated (sizeof_T * 2) (map (hex_operand sizeof_T) elements) /\
    insert_integral_array sizeof_T elements
    = Str "0x" ::
      space_separated (sizeof_T * 2) (map (hex_operand sizeof_T) elements) /\
    Str "0x" :: GetMemoryHex mem base n
    = insert_integral_vector 1 (map Z.of_N (octets mem base n)) /\
    (forall x, (0 <= x < 2 ^ (8 * Z.of_nat sizeof_T))%Z ->
               hex_operand sizeof_T x = Z.to_N x) /\
    (forall x, (sizeof_T <= 4)%nat -> (- 2 ^ 31 <= x < 0)%Z ->
               hex_operand sizeof_T x = Z.to_N (x + 2 ^ 32)).
Proof.
  intros mem base n sizeof_T elements.
  assert (Hv : insert_integral_vector 1 (map Z.of_N (octets mem base n))
               = Str "0x" :: space_separated 2 (octets mem base n)).
  { unfold insert_integral_vector, octets.
    rewrite hex_elements_loop_first, !map_map.
    change (1 * 2)%nat with 2%nat. do 2 f_equal.
    apply map_ext. intros k. apply hex_operand_octet. }
  assert (Hm : GetMemoryHex mem base n = space_separated 2 (octets mem base n)).
  { unfold GetMemoryHex, octets.
    rewrite GetMemoryHex_loop_elements, hex_elements_loop_first.
    rewrite map_map. change (1 * 2)%nat with 2%nat. f_equal.
    apply map_ext. intros k. rewrite hex_operand_octet. reflexivity. }
  unfold insert_integral_array.
  split; [exact Hm|]. split; [|split; [|split; [|split]]].
  - unfold insert_integral_vector. rewrite hex_elements_loop_first.
    reflexivity.
  - rewrite hex_elements_loop_first. reflexivity.
  - rewrite Hv, Hm. reflexivity.
  - intros x Hx. unfold hex_operand, INT_BITS. f_equal. apply Z.mod_small.
    split; [lia|]. eapply Z.lt_le_trans; [apply Hx|].
    apply Z.pow_le_mono_r; lia.
  - intros x Hsz Hx. unfold hex_operand, INT_BITS.
    replace (N.max 32 (8 * N.of_nat sizeof_T)) with 32 by lia.
    f_equal. change (Z.of_N 32) with 32%Z. symmetry.
    apply (Z.mod_unique x (2 ^ 32) (-1) (x + 2 ^ 32)); lia.
Qed.

(** Adapters.IntegralVector: what a failing comparison would print for
    [vec_1]. *)
Example insert_vec_1 :
  insert_integral_vector 1 vec_1 =
  [Str "0x"; Hex 2 0; Str " "; Hex 2 17; Str " "; Hex 2 34; Str " ";
   Hex 2 51; Str " "; Hex 2 68; Str " "; Hex 2 85; Str " "; Hex 2 102;
   Str " "; Hex 2 119; Str " "; Hex 2 136; Str " "; Hex 2 153; Str " ";
   Hex 2 170; Str " "; Hex 2 187; Str " "; Hex 2 204; Str " "; Hex 2 221;
   Str " "; Hex 2 238; Str " "; Hex 2 255].
Proof. reflexivity. Qed.

(** A vector of [int8_t] holding -1 and 1: the first element is promoted to
    [int] and takes eight digits. *)
Example insert_negative_octets :
  insert_integral_vector 1 [-1; 1]%Z
  = [Str "0x"; Hex 2 4294967295; Str " "; Hex 2 1].
Proof. reflexivity. Qed.

(** ** What the assertion functions leave alone *)

Lemma printed_nil p : printed p [] p.
Proof. unfold printed. destruct p. cbn. rewrite app_nil_r. reflexivity. Qed.

Lemma printed_print p out : printed p out (exec (print out) p).
Proof. reflexivity. Qed.

Lemma printed_then p out1 p1 out2 p2 :
  printed p out1 p1 -> printed p1 out2 p2 -> printed p (out1 ++ out2) p2.
Proof.
  unfold printed. intros -> ->. cbn. rewrite app_assoc. reflexivity.
Qed.

(** [AssertBoolean], [AssertClose], [AssertMemoryEqual] and
    [AssertMemoryNotEqual] do nothing but print: they change neither
    [Test_Failed] (setting it is left to the macros), nor the memory, the
    clock or the message strings; and when they return true they print
    nothing, so that the process is exactly as before. *)
Theorem assertion_functions_only_print :
  forall (file : string) (line : N) (p : Process),
    (forall value,
        (exists out, printed p out (snd (AssertBoolean file line value p))) /\
        (fst (AssertBoolean file line value p) = Ret true ->
         snd (AssertBoolean file line value p) = p)) /\
    (forall f lhs rhs epsilon,
        (exists out,
            printed p out (snd (AssertClose f file line lhs rhs epsilon p))) /\
        (fst (AssertClose f file line lhs rhs epsilon p) = Ret true ->
         snd (AssertClose f file line lhs rhs epsilon p) = p)) /\
    (forall a b n,
        (exists out, printed p out (snd (AssertMemoryEqual file line a b n p))) /\
        (fst (AssertMemoryEqual file line a b n p) = Ret true ->
         snd (AssertMemoryEqual file line a b n p) = p)) /\
    (forall a b n,
        (exists out,
            printed p out (snd (AssertMemoryNotEqual file line a b n p))) /\
        (fst (AssertMemoryNotEqual file line a b n p) = Ret true ->
         snd (AssertMemoryNotEqual file line a b n p) = p)).
Proof.
  intros file line p. split; [|split; [|split]].
  - intros value. unfold AssertBoolean. destruct value.
    + split; [exists []; apply printed_nil | reflexivity].
    + split; [eexists; apply printed_print | discriminate].
  - intros f lhs rhs epsilon. unfold AssertClose.
    destruct (SFltb (SFabs (SFsub (prec f) (emax f) lhs rhs)) epsilon).
    + split; [exists []; apply printed_nil | reflexivity].
    + split; [|discriminate]. eexists.
      eapply printed_then; [apply printed_print|].
      eapply printed_then; apply printed_print.
  - intros a b n. unfold AssertMemoryEqual. rewrite bind_get.
    destruct (fst (compare_loop (memory p) a b (N.to_nat n) 0)).
    + split; [exists []; apply printed_nil | reflexivity].
    + split; [|discriminate]. eexists.
      eapply printed_then; apply printed_print.
  - intros a b n. unfold AssertMemoryNotEqual. rewrite bind_get.
    destruct (fst (compare_loop (memory p) a b (N.to_nat n) 0)); cbn [negb].
    + split; [|discriminate]. eexists.
      eapply printed_then; apply printed_print.
    + split; [exists []; apply printed_nil | reflexivity].
Qed.

(** ** Exception assertions *)

(** A callable that passes [AssertException<T>] for some [T] passes
    [AssertException], and in both cases the process is left as the callable
    left it: a passing exception assertion prints nothing. *)
Theorem typed_exception_assertion_implies_untyped :
  forall (T file file' : string) (line line' : N) (f : Callable)
         (name : string) (p : Process),
    fst (AssertException_T T file line f name p) = Ret true ->
    AssertException_T T file line f name p = (Ret true, snd (f p)) /\
    AssertException file' line' f p = (Ret true, snd (f p)).
Proof.
  intros T file file' line line' f name p.
  rewrite AssertException_T_run, AssertException_run.
  destruct (f p) as [[[]|e|] p']; cbn [fst snd]; try discriminate.
  destruct (handler_matches T (dynamic_type e)); [|discriminate].
  intros _. split; reflexivity.
Qed.

Lemma typed_exception_assertion_implies_untyped_witness :
  AssertException_T "std::runtime_error" "test_exceptions.cpp" 46
                    test_throw_named "std::runtime_error" initial_process
  = (Ret true, snd (test_throw_named initial_process)) /\
  AssertException "test_exceptions.cpp" 52 test_throw_named initial_process
  = (Ret true, snd (test_throw_named initial_process)).
Proof.
  apply (typed_exception_assertion_implies_untyped "std::runtime_error"
           "test_exceptions.cpp" "test_exceptions.cpp" 46 52 test_throw_named
           "std::runtime_error" initial_process).
  reflexivity.
Defined.

Lemma chain_type_name n ancestors : type_name (chain n ancestors) = n.
Proof. destruct ancestors; reflexivity. Qed.

(** In a single-inheritance chain of classes with different names, an
    object holds at most one subobject of a class named [T], which is
    accessible; it holds one exactly when [T] is one of the names. *)
Lemma chain_subobjects_named T : forall ancestors n path,
  NoDup (n :: ancestors) ->
  (In T (n :: ancestors) /\
   exists id, filter (fun s => ends_in T (fst s))
                     (subobjects path true (chain n ancestors))
              = [(id, true)]) \/
  (~ In T (n :: ancestors) /\
   filter (fun s => ends_in T (fst s))
          (subobjects path true (chain n ancestors)) = []).
Proof.
  induction ancestors as [|a rest IH]; intros n path Hnd.
  - cbn [chain subobjects filter fst]. rewrite ends_in_last.
    destruct (String.eqb n T) eqn:E.
    + apply String.eqb_eq in E. left. split; [left; exact E|].
      eexists. reflexivity.
    + apply String.eqb_neq in E. right. split; [|reflexivity].
      intros [H | []]. contradiction.
  - inversion Hnd as [|? ? Hnotin Hnd']; subst.
    change (subobjects path true (chain n (a :: rest)))
      with ((path ++ [n], true) ::
            subobjects (path ++ [n]) true (chain a rest) ++ []).
    rewrite app_nil_r. cbn [filter fst]. rewrite ends_in_last.
    destruct (IH a (path ++ [n]) Hnd') as [[Hin [id Hid]] | [Hout Hnil]];
      destruct (String.eqb n T) eqn:E.
    + apply String.eqb_eq in E. subst T. contradiction.
    + left. split; [right; exact Hin|]. exists id. exact Hid.
    + apply String.eqb_eq in E. left. split; [left; exact E|].
      rewrite Hnil. eexists. reflexivity.
    + apply String.eqb_neq in E. right. split; [|exact Hnil].
      intros [H | H]; contradiction.
Qed.

Lemma chain_handler_matches T n ancestors :
  NoDup (n :: ancestors) ->
  (handler_matches T (chain n ancestors) = true <-> In T (n :: ancestors)).
Proof.
  intros Hnd. rewrite handler_matches_iff, chain_type_name.
  assert (Hu : unambiguous_public_base T (chain n ancestors) = true
               <-> In T ancestors).
  { unfold unambiguous_public_base, base_subobjects.
    destruct ancestors as [|a rest].
    - cbn. split; [discriminate | contradiction].
    - inversion Hnd as [|? ? _ Hnd']; subst.
      change (tl (subobjects [] true (chain n (a :: rest))))
        with (subobjects ([] ++ [n]) true (chain a rest) ++ []).
      rewrite app_nil_r.
      destruct (chain_subobjects_named T rest a ([] ++ [n]) Hnd')
        as [[Hin [id Hid]] | [Hout Hnil]].
      + rewrite Hid. cbn. split; [intros _; exact Hin | reflexivity].
      + rewrite Hnil. split; [discriminate | contradiction]. }
  rewrite Hu. cbn [In]. reflexivity.
Qed.

(** Where the classes thrown form a single-inheritance chain of public
    bases with different names, as [CustomException],
    [std::runtime_error], [std::exception] do, [AssertException<T>] on a
    callable that throws an object of the most derived class returns true
    exactly when [T] is that class or any one of its ancestors. *)
Theorem single_inheritance_accepts_every_ancestor :
  forall (T file : string) (line : N) (name : string) (p : Process)
         (n : string) (ancestors : list string) (text : string),
    NoDup (n :: ancestors) ->
    (fst (AssertException_T T file line
            (throw (mkException (chain n ancestors) text)) name p)
     = Ret true
     <-> In T (n :: ancestors)).
Proof.
  intros T file line name p n ancestors text Hnd.
  rewrite AssertException_T_run. unfold throw. cbn [dynamic_type].
  rewrite <- (chain_handler_matches T n ancestors Hnd).
  destruct (handler_matches T (chain n ancestors)); cbn [fst];
    split; intros H; try reflexivity; discriminate.
Qed.

Lemma single_inheritance_accepts_every_ancestor_witness :
  fst (AssertException_T "std::exception" "test_exceptions.cpp" 46
         (throw (mkException
                   (chain "CustomException"
                          ["std::runtime_error"; "std::exception"])
                   "derived"))
         "std::exception" initial_process)
  = Ret true
  <-> In "std::exception"
         ["CustomException"; "std::runtime_error"; "std::exception"].
Proof.
  apply (single_inheritance_accepts_every_ancestor "std::exception"
           "test_exceptions.cpp" 46 "std::exception" initial_process
           "CustomException" ["std::runtime_error"; "std::exception"]
           "derived").
  repeat constructor; cbn; intuition discriminate.
Defined.

(** ** The memory macros *)

(** [STF_ASSERT_MEM_EQ] goes on with the rest of the test body, in the same
    process state, exactly when the two ranges hold the same octets;
    otherwise it sets [Test_Failed], returns from the body, and the rest of
    the body is not run.  [STF_ASSERT_MEM_NE] does the converse. *)
Theorem memory_macros_pass_or_abort :
  forall (file : string) (line a b n : N) (rest : M unit) (p : Process),
    (ranges_equal (memory p) a b n ->
       STF_ASSERT_MEM_EQ file line a b n rest p = rest p /\
       fst (STF_ASSERT_MEM_NE file line a b n rest p) = Ret tt /\
       Test_Failed (snd (STF_ASSERT_MEM_NE file line a b n rest p)) = true /\
       forall rest', STF_ASSERT_MEM_NE file line a b n rest' p
                     = STF_ASSERT_MEM_NE file line a b n rest p) /\
    (~ ranges_equal (memory p) a b n ->
       STF_ASSERT_MEM_NE file line a b n rest p = rest p /\
       fst (STF_ASSERT_MEM_EQ file line a b n rest p) = Ret tt /\
       Test_Failed (snd (STF_ASSERT_MEM_EQ file line a b n rest p)) = true /\
       forall rest', STF_ASSERT_MEM_EQ file line a b n rest' p
                     = STF_ASSERT_MEM_EQ file line a b n rest p).
Proof.
  intros file line a b n rest p.
  pose proof (compare_loop_equal (memory p) a b n) as Heq.
  unfold STF_ASSERT_MEM_EQ, STF_ASSERT_MEM_NE, STF_ASSERT,
    AssertMemoryEqual, AssertMemoryNotEqual.
  split; intros H.
  - apply Heq in H. unfold bind, get. rewrite H. cbn.
    repeat split; reflexivity.
  - assert (Hf : fst (compare_loop (memory p) a b (N.to_nat n) 0) = false).
    { destruct (fst (compare_loop (memory p) a b (N.to_nat n) 0)) eqn:E;
        [|reflexivity].
      exfalso. apply H, Heq. reflexivity. }
    unfold bind, get. rewrite Hf. cbn. repeat split; reflexivity.
Qed.

(** ** FriendlyDuration: the count that is divided by 1000.0 *)

(** For a duration [d] that is not negative, the integer count that
    [FriendlyDuration] converts to [double] and divides by [1000.0] is [d]
    in thousandths of the unit of the suffix, cut off and not rounded
    ([duration_cast] truncates): the count never exceeds [d] and falls
    short of it by less than one thousandth of the unit; below one second
    the count is less than 1000000.  How the stream then renders the
    quotient is not part of this statement. *)
Theorem FriendlyDuration_truncates :
  forall d : Z,
    (0 <= d)%Z ->
    exists (u : TimeUnit) (thousandths : Z),
      FriendlyDuration d = [Dbl (thousandths # 1000); Str (unit_suffix u)] /\
      (thousandths * (nanoseconds_per u / 1000) <= d
       < (thousandths + 1) * (nanoseconds_per u / 1000))%Z /\
      ((d < 1000000000)%Z -> (thousandths < 1000000)%Z).
Proof.
  intros d Hd. unfold FriendlyDuration.
  destruct (1000000000 <=? d)%Z eqn:Hs; [|destruct (1000000 <=? d)%Z eqn:Hm].
  - apply Z.leb_le in Hs. exists Seconds, (Z.quot d 1000000).
    cbn [unit_suffix nanoseconds_per].
    change (1000000000 / 1000)%Z with 1000000%Z.
    rewrite Z.quot_div_nonneg by lia.
    split; [reflexivity|]. split; [|lia].
    pose proof (Z.div_mod d 1000000 ltac:(lia)).
    pose proof (Z.mod_pos_bound d 1000000 ltac:(lia)). lia.
  - apply Z.leb_le in Hm. apply Z.leb_gt in Hs.
    exists Milliseconds, (Z.quot d 1000). cbn [unit_suffix nanoseconds_per].
    change (1000000 / 1000)%Z with 1000%Z.
    rewrite Z.quot_div_nonneg by lia.
    pose proof (Z.div_mod d 1000 ltac:(lia)).
    pose proof (Z.mod_pos_bound d 1000 ltac:(lia)).
    split; [reflexivity|]. split; lia.
  - apply Z.leb_gt in Hm. apply Z.leb_gt in Hs.
    exists Microseconds, d. cbn [unit_suffix nanoseconds_per].
    change (1000 / 1000)%Z with 1%Z.
    split; [reflexivity|]. split; lia.
Qed.

Lemma FriendlyDuration_truncates_witness :
  exists (u : TimeUnit) (thousandths : Z),
    FriendlyDuration 1234567 = [Dbl (thousandths # 1000); Str (unit_suffix u)] /\
    (thousandths * (nanoseconds_per u / 1000) <= 1234567
     < (thousandths + 1) * (nanoseconds_per u / 1000))%Z /\
    ((1234567 < 1000000000)%Z -> (thousandths < 1000000)%Z).
Proof.
  apply (FriendlyDuration_truncates 1234567). discriminate.
Defined.

(** ** The iteration of the loop on a passing test *)

(** When a test that is not excluded returns in time with [Test_Failed]
    clear, the worker adds nothing to what the body did; the runner prints
    the time by which the body advanced the clock, adds that time to the
    total, and goes on with the next test. *)
Theorem passing_test_reports_its_duration :
  forall (exclusions : option (list string)) (t : TestCase)
         (rest : list TestCase) (total : Z) (p p' : Process),
    exclude_test exclusions (test_name t) = false ->
    test_body t (exec (print (running_line (test_name t))) p) = (Ret tt, p') ->
    (steady_clock p' - steady_clock p
     < Z.of_N (test_timeout t) * 1000000000)%Z ->
    Test_Failed p' = false ->
    run_tests exclusions (t :: rest) total p =
    run_tests exclusions rest
              (total + (steady_clock p' - steady_clock p))%Z
              (exec (print ([Str " ("] ++
                            FriendlyDuration (steady_clock p' - steady_clock p) ++
                            [Str ")"; Endl])) p').
Proof.
  intros exclusions t rest total p p' Hx Hbody Ht Hf.
  cbn [run_tests]. rewrite Hx, worker_cases, Hbody.
  unfold wait_for. cbn [exec print snd steady_clock].
  apply Z.ltb_lt in Ht. rewrite Ht, Hf. reflexivity.
Qed.

Lemma passing_test_reports_its_duration_witness :
  run_tests None [case_TestToRun; case_AnotherTestToRun] 0 initial_process =
  run_tests None [case_AnotherTestToRun]
            (0 + (steady_clock
                    (snd (TestToRun
                            (exec (print (running_line
                                            "Miscellaneous::TestToRun"))
                                  initial_process)))
                  - steady_clock initial_process))%Z
            (exec (print ([Str " ("] ++
                          FriendlyDuration
                            (steady_clock
                               (snd (TestToRun
                                       (exec (print (running_line
                                                       "Miscellaneous::TestToRun"))
                                             initial_process)))
                             - steady_clock initial_process) ++
                          [Str ")"; Endl]))
                  (snd (TestToRun
                          (exec (print (running_line
                                          "Miscellaneous::TestToRun"))
                                initial_process)))).
Proof.
  apply (passing_test_reports_its_duration None case_TestToRun
           [case_AnotherTestToRun] 0%Z initial_process).
  - reflexivity.
  - reflexivity.
  - reflexivity.
  - reflexivity.
Defined.

(** ** Further runs of the model *)

(** A body that prints, works past its timeout of two seconds, and would
    then print again and fail: the run shows the first line only, then the
    diagnostic, and [Test_Failed] is still clear when the process ends. *)
Example late_run :
  fst (main late_registry initial_process) = Exited EXIT_FAILURE /\
  Test_Failed (snd (main late_registry initial_process)) = false /\
  cout (snd (main late_registry initial_process)) =
  [Str "Total numbers of tests: "; Num 3; Endl;
   Str "Running test "; Str "Miscellaneous::TestToRun"; Flush;
   Str " ("; Dbl (1500 # 1000); Str " us"; Str ")"; Endl;
   Str "Running test "; Str "Miscellaneous::Late"; Flush;
   Str "step 1"; Endl] ++
  timeout_message "Miscellaneous::Late" 2.
Proof. repeat split; reflexivity. Qed.

(** Handlers and base classes: a base held twice is not accepted, a virtual
    base held once is, a private base is not, and each class of the diamond
    accepts itself and its unambiguous bases. *)
Example handlers_and_bases :
  handler_matches "Root" Both = false /\
  handler_matches "Left" Both = true /\
  handler_matches "Both" Both = true /\
  handler_matches "Root" Both_virtual = true /\
  handler_matches "Root" Hidden = false /\
  handler_matches "Root" Left = true.
Proof. repeat split; reflexivity. Qed.

(** A timeout argument that [unsigned] does not hold is reduced modulo
    [2^32] when the macro passes it to [RegisterTest]. *)
Example timeout_argument_is_converted :
  registered_tests
    (declare generous
       (STF_TEST_TIMEOUT "Miscellaneous" "Stalled" never_returns 4294967298)
       empty_registry)
  = [case_Stalled].
Proof. reflexivity. Qed.
